(** * Job portal scraper: the dispatch-and-merge orchestrator of [main.py]

    A shallow embedding of [scrape_portal] and [main] and of the fragment of
    pandas and [concurrent.futures] they call, with the properties of the
    consolidated table proved over it.

    Conventions.
    - A job record is a Python [dict] with string keys and string values; it
      is kept as an association list because the insertion order of the keys
      decides the column order of the table.
    - A [DataFrame] is held column-wise, as pandas does: a missing cell is
      [None] (pandas' NaN).
    - The two crawlers live in modules outside [main.py]; a crawler is taken
      as a value of type [Crawler], its only capability being [scrape_jobs].
    - An error is an instance of [Exception], carried as its message. *)

From Stdlib Require Import String Ascii List Bool Arith Lia DecimalString.
From Stdlib Require Import Permutation Sorted.
Import ListNotations.

Open Scope list_scope.
Open Scope string_scope.

(** ** Strings *)

Module Str.

Definition nl : string := String (ascii_of_nat 10) EmptyString.

(** ['='*60] *)
Fixpoint repeat (s : string) (n : nat) : string :=
  match n with
  | O => EmptyString
  | S n' => s ++ repeat s n'
  end.

Definition upper_ascii (c : ascii) : ascii :=
  let n := nat_of_ascii c in
  if andb (97 <=? n)%nat (n <=? 122)%nat then ascii_of_nat (n - 32) else c.

(** [str.upper], on the ASCII letters. *)
Fixpoint upper (s : string) : string :=
  match s with
  | EmptyString => EmptyString
  | String c s' => String (upper_ascii c) (upper s')
  end.

(** [str(n)] for a length. *)
Definition of_nat (n : nat) : string :=
  NilZero.string_of_uint (Nat.to_uint n).

(** [sub] occurs somewhere inside [s]. *)
Definition contains (s sub : string) : Prop :=
  exists pre post, s = pre ++ sub ++ post.

Definition mem (k : string) (l : list string) : bool :=
  existsb (String.eqb k) l.

End Str.

(** ** Job records and what a producer returns *)

Definition record := list (string * string).

Definition keys (r : record) : list string := map fst r.

(** [r.get(k)]: the value under [k], if the record has the key. *)
Fixpoint get (k : string) (r : record) : option string :=
  match r with
  | [] => None
  | (k', v) :: r' => if String.eqb k k' then Some v else get k r'
  end.

(** The value [scrape_jobs] hands back: a list of records, or [None]. *)
Inductive pyval :=
| PyNone
| PyList (l : list record).

(** Python truthiness, as tested by [if jobs:]. *)
Definition truthy (v : pyval) : bool :=
  match v with
  | PyNone => false
  | PyList [] => false
  | PyList (_ :: _) => true
  end.

(** [len(jobs)] *)
Definition len (v : pyval) : nat :=
  match v with
  | PyNone => 0
  | PyList l => length l
  end.

Inductive produce_outcome :=
| Raises (e : string)
| Returns (v : pyval).

Record Crawler := { scrape_jobs : nat -> produce_outcome }.

(** ** Console output *)

(** The table written to disk by [to_csv]: the header and the rows of
    rendered fields. *)
Record csv_file := { header : list string; lines : list (list string) }.

(** One [print] call.  The file-size line shows the size of the artifact on
    disk, which depends on the platform's byte-level rendering; it is kept
    as an event naming the file printed. *)
Inductive printed :=
| Line (s : string)
| FileSizeLine (f : csv_file).

(** ** [scrape_portal] (main.py, lines 15-30) *)

Definition banner : string := Str.repeat "=" 60.

Definition scrape_portal (crawler : Crawler) (portal_name : string)
    (max_pages : nat) : pyval * list printed :=
  let started :=
    [ Line (Str.nl ++ banner);
      Line ("STARTING " ++ Str.upper portal_name ++ " SCRAPING");
      Line banner ] in
  match scrape_jobs crawler max_pages with
  | Returns jobs =>
      if truthy jobs then
        (jobs,
         (started ++
          [ Line (portal_name ++ " scraping completed successfully. Jobs collected: "
                  ++ Str.of_nat (len jobs)) ])%list)
      else
        (PyList [],
         (started ++
          [ Line (" " ++ portal_name ++ " scraping failed or returned no data") ])%list)
  | Raises e =>
      (PyList [],
       (started ++
        [ Line ("Error during " ++ portal_name ++ " scraping: " ++ e) ])%list)
  end.

(** ** The fragment of pandas used by [main] *)

(** A lookup that fails raises [KeyError] in Python. *)
Inductive result (A : Type) :=
| Ok (a : A)
| KeyError (k : string).

Arguments Ok {A} a.
Arguments KeyError {A} k.

Definition bind {A B : Type} (m : result A) (f : A -> result B) : result B :=
  match m with
  | Ok a => f a
  | KeyError k => KeyError k
  end.

Notation "x <- m ;; k" := (bind m (fun x => k))
  (at level 61, m at next level, right associativity).

Module pd.

(** A cell of the table; [None] is NaN, the missing value. *)
Definition cell := option string.

(** A table, column by column: every column holds [index_len] cells. *)
Record DataFrame := { index_len : nat; cols : list (string * list cell) }.

(** The keys of one record that were not seen before, appended in order. *)
Fixpoint add_keys (seen ks : list string) : list string :=
  match ks with
  | [] => seen
  | k :: ks' =>
      if Str.mem k seen then add_keys seen ks'
      else add_keys (seen ++ [k])%list ks'
  end.

(** The keys of all records, each once, in order of first occurrence. *)
Definition union_keys (data : list record) : list string :=
  fold_left (fun seen r => add_keys seen (keys r)) data [].

(** [pd.DataFrame(data)] for a list of dicts: one row per dict, one column
    per key, NaN where a dict lacks the key. *)
Definition of_records (data : list record) : DataFrame :=
  {| index_len := length data;
     cols := map (fun k => (k, map (get k) data)) (union_keys data) |}.

(** [df.columns] *)
Definition columns (df : DataFrame) : list string := map fst (cols df).

(** [len(df)] *)
Definition nrows (df : DataFrame) : nat := index_len df.

Fixpoint replace_col (col : string) (vs : list cell)
    (cs : list (string * list cell)) : list (string * list cell) :=
  match cs with
  | [] => []
  | (c, old) :: cs' =>
      if String.eqb c col then (c, vs) :: cs' else (c, old) :: replace_col col vs cs'
  end.

(** [df[col] = v] for a scalar [v]: the column is overwritten when it
    exists and appended as the last column when it does not. *)
Definition setitem (df : DataFrame) (col v : string) : DataFrame :=
  let vs := List.repeat (Some v) (index_len df) in
  {| index_len := index_len df;
     cols := if Str.mem col (columns df)
             then replace_col col vs (cols df)
             else (cols df ++ [(col, vs)])%list |}.

Fixpoint find_col (col : string) (cs : list (string * list cell))
    : option (list cell) :=
  match cs with
  | [] => None
  | (c, vs) :: cs' => if String.eqb col c then Some vs else find_col col cs'
  end.

(** [df[col]]: the column as a Series. *)
Definition getitem (df : DataFrame) (col : string) : result (list cell) :=
  match find_col col (cols df) with
  | Some vs => Ok vs
  | None => KeyError col
  end.

Fixpoint select (cs : list (string * list cell)) (names : list string)
    : result (list (string * list cell)) :=
  match names with
  | [] => Ok []
  | n :: names' =>
      match find_col n cs with
      | Some vs => rest <- select cs names' ;; Ok ((n, vs) :: rest)
      | None => KeyError n
      end
  end.

(** [df[names]]: the named columns, in the order asked for. *)
Definition getitem_list (df : DataFrame) (names : list string)
    : result DataFrame :=
  cs <- select (cols df) names ;;
  Ok {| index_len := index_len df; cols := cs |}.

(** The cell of row [i] in column [col]. *)
Definition at_ (df : DataFrame) (i : nat) (col : string) : option cell :=
  match find_col col (cols df) with
  | Some vs => nth_error vs i
  | None => None
  end.

(** *** [Series.value_counts] *)

(** [notna]: the cell is not missing. *)
Definition notna (c : cell) : bool :=
  match c with
  | Some _ => true
  | None => false
  end.

Fixpoint bump (v : string) (acc : list (string * nat)) : list (string * nat) :=
  match acc with
  | [] => [(v, 1)]
  | (k, n) :: acc' =>
      if String.eqb k v then (k, S n) :: acc' else (k, n) :: bump v acc'
  end.

(** Occurrences of each value, NaN left out, in order of first occurrence. *)
Definition tally (s : list cell) : list (string * nat) :=
  fold_left (fun acc c => match c with
                          | Some v => bump v acc
                          | None => acc
                          end) s [].

Fixpoint insert_desc (x : string * nat) (l : list (string * nat))
    : list (string * nat) :=
  match l with
  | [] => [x]
  | y :: l' =>
      if (snd x <? snd y)%nat then y :: insert_desc x l' else x :: y :: l'
  end.

(** The counts, most frequent first; equal counts keep their order. *)
Definition value_counts (s : list cell) : list (string * nat) :=
  fold_right insert_desc [] (tally s).

(** The number of cells of a column that hold [v]. *)
Definition count_of (v : string) (s : list cell) : nat :=
  length (filter (fun c => match c with
                           | Some x => String.eqb x v
                           | None => false
                           end) s).

(** Every column of the table has one cell per row. *)
Definition rectangular (df : DataFrame) : Prop :=
  forall c vs, In (c, vs) (cols df) -> length vs = index_len df.

(** *** [DataFrame.to_csv(index=False)] *)

(** A missing cell is written as the empty field. *)
Definition render (c : cell) : string :=
  match c with
  | Some s => s
  | None => ""
  end.

Definition row (df : DataFrame) (i : nat) : list cell :=
  map (fun c => nth i (snd c) None) (cols df).

Definition to_csv (df : DataFrame) : csv_file :=
  {| header := columns df;
     lines := map (fun i => map render (row df i)) (seq 0 (index_len df)) |}.

End pd.

(** ** The file system *)

Definition filesystem := string -> option csv_file.

(** Writing a file replaces whatever was stored under the path. *)
Definition write (fs : filesystem) (path : string) (f : csv_file) : filesystem :=
  fun p => if String.eqb p path then Some f else fs p.

(** ** [main] (main.py, lines 33-110) *)

(** What [future.result()] gives for a settled future: the value the task
    returned, or the exception it raised. *)
Inductive future :=
| Result (v : pyval)
| Exc (e : string).

(** [executor.submit(scrape_portal, crawler, name, 1)], once the task has
    run: the settled future and what the task printed. *)
Definition submit (crawler : Crawler) (portal_name : string) (max_pages : nat)
    : future * list printed :=
  let (jobs, out) := scrape_portal crawler portal_name max_pages in
  (Result jobs, out).

(** [all_jobs_data.extend(jobs)] *)
Definition extend (all_jobs_data : list record) (jobs : pyval) : list record :=
  match jobs with
  | PyList l => (all_jobs_data ++ l)%list
  | PyNone => all_jobs_data
  end.

(** The body of the [as_completed] loop (lines 61-66), on the pair of the
    list being filled and the lines printed so far. *)
Definition collect (acc : list record * list printed) (f : future)
    : list record * list printed :=
  let (all_jobs_data, out) := acc in
  match f with
  | Result jobs =>
      if truthy jobs then (extend all_jobs_data jobs, out) else acc
  | Exc e =>
      (all_jobs_data, (out ++ [Line ("Thread execution error: " ++ e)])%list)
  end.

Definition required_columns : list string :=
  ["title"; "company"; "location"; "salary"; "description"; "job_url"; "source"].

(** The body of the loop of lines 79-81. *)
Definition fill_missing (df : pd.DataFrame) (col : string) : pd.DataFrame :=
  if Str.mem col (pd.columns df) then df else pd.setitem df col "N/A".

(** Lines 79-81. *)
Definition ensure_required (df : pd.DataFrame) : pd.DataFrame :=
  fold_left fill_missing required_columns df.

(** Line 84. *)
Definition column_order (df : pd.DataFrame) : list string :=
  "source" :: filter (fun col => negb (String.eqb col "source")) (pd.columns df).

(** The consolidated table: lines 75-85. *)
Definition consolidate (all_jobs_data : list record) : result pd.DataFrame :=
  let df := pd.of_records all_jobs_data in
  let df := ensure_required df in
  pd.getitem_list df (column_order df).

Definition output_filename : string := "job_lists.csv".

(** Line 97. *)
Definition source_counts (df : pd.DataFrame) : result (list (string * nat)) :=
  source <- pd.getitem df "source" ;;
  Ok (pd.value_counts source).

(** The sum of the counts of a summary. *)
Definition total (counts : list (string * nat)) : nat :=
  list_sum (map snd counts).

(** The per-source lines of the summary: lines 99-100. *)
Definition breakdown (source_counts : list (string * nat)) : list printed :=
  map (fun sc => Line ("  - " ++ fst sc ++ ": " ++ Str.of_nat (snd sc) ++ " jobs"))
      source_counts.

(** Lines 69-110: emit the table and the summary, or report the empty run. *)
Definition combine_and_save (all_jobs_data : list record) (fs : filesystem)
    : result (filesystem * list printed) :=
  match all_jobs_data with
  | _ :: _ =>
      df <- consolidate all_jobs_data ;;
      let fs' := write fs output_filename (pd.to_csv df) in
      source_counts <- source_counts df ;;
      Ok (fs',
          ([ Line (Str.nl ++ banner);
             Line "COMBINING AND SAVING DATA";
             Line banner;
             Line (" Combined data saved to: " ++ output_filename);
             Line (" Total jobs collected: " ++ Str.of_nat (length all_jobs_data));
             FileSizeLine (pd.to_csv df);
             Line (Str.nl ++ "Jobs by source:") ]
           ++ breakdown source_counts
           ++ [ Line (Str.nl ++ banner);
                Line "SCRAPING COMPLETED SUCCESSFULLY!";
                Line banner ])%list)
  | [] =>
      Ok (fs,
          [ Line (Str.nl ++ " No job data was collected from either portal.");
            Line "Please check the individual scraper outputs above for errors." ])
  end.

(** The order in which [as_completed] yields the two futures. *)
Inductive completion := JoraFirst | SeekFirst.

Definition as_completed {A : Type} (first : completion) (jora seek : A) : list A :=
  match first with
  | JoraFirst => [jora; seek]
  | SeekFirst => [seek; jora]
  end.

Definition preamble : list printed :=
  [ Line "Job Portal Scraper - Combined Edition";
    Line banner;
    Line "This will scrape both Jora and Seek portals for sponsorship available jobs";
    Line "All data will be combined into a single job_lists.csv file";
    Line "Both crawlers will run simultaneously for faster execution";
    Line banner;
    Line (Str.nl ++ banner);
    Line "STARTING CONCURRENT SCRAPING";
    Line "Both Jora and Seek crawlers will run simultaneously";
    Line banner ].

(** What a run leaves behind: the file system and what each thread
    printed.  The three streams share one console; how their lines
    interleave there is up to the scheduler. *)
Record run := {
  disk : filesystem;
  main_out : list printed;
  jora_out : list printed;
  seek_out : list printed
}.

(** Lines 54-66: both tasks are run and their results gathered in the
    order of completion. *)
Definition gather (jora_crawler seek_crawler : Crawler) (first : completion)
    : list record * list printed :=
  let jora_future := fst (submit jora_crawler "Jora" 1) in
  let seek_future := fst (submit seek_crawler "Seek" 1) in
  fold_left collect (as_completed first jora_future seek_future) ([], preamble).

Definition main (jora_crawler seek_crawler : Crawler) (first : completion)
    (fs : filesystem) : result run :=
  let (all_jobs_data, out) := gather jora_crawler seek_crawler first in
  saved <- combine_and_save all_jobs_data fs ;;
  Ok {| disk := fst saved;
        main_out := (out ++ snd saved)%list;
        jora_out := snd (submit jora_crawler "Jora" 1);
        seek_out := snd (submit seek_crawler "Seek" 1) |}.

(** A producer came back with nothing: it raised, or what it returned is
    falsy. *)
Definition empty_handed (o : produce_outcome) : bool :=
  match o with
  | Raises _ => true
  | Returns v => negb (truthy v)
  end.

(** The records a task's result adds to [all_jobs_data]. *)
Definition rows_from (jobs : pyval) : list record :=
  match jobs with
  | PyList l => l
  | PyNone => []
  end.

(** A record has the field [k]. *)
Definition has_field (k : string) (r : record) : bool :=
  match get k r with
  | Some _ => true
  | None => false
  end.

(** The table of a run, when one is emitted. *)
Definition consolidated_table (jora_crawler seek_crawler : Crawler)
    (first : completion) : option (result pd.DataFrame) :=
  match fst (gather jora_crawler seek_crawler first) with
  | [] => None
  | all_jobs_data => Some (consolidate all_jobs_data)
  end.

(** ** The thread pool of [main], step by step (lines 54-69)

    [main] submits both tasks, loops over [as_completed], leaves the [with]
    block and only then combines the data.  The two workers settle their
    futures at moments of their own choosing; the transitions below are the
    ones the scheduler can interleave. *)

Module Dispatch.

Inductive task := Jora | Seek.

Definition task_eqb (a b : task) : bool :=
  match a, b with
  | Jora, Jora | Seek, Seek => true
  | _, _ => false
  end.

(** Where the main thread stands. *)
Inductive pc :=
| InLoop                                         (* lines 60-66 *)
| AfterPool                                      (* the [with] block is left *)
| Finished (saved : result (filesystem * list printed)).   (* lines 69-110 ran *)

Record state := {
  jora_future : option future;       (* [None]: the task is still running *)
  seek_future : option future;
  yielded : list task;               (* futures handed out by [as_completed] *)
  all_jobs_data : list record;
  out : list printed;                (* printed by the main thread *)
  at_pc : pc
}.

Definition future_of (s : state) (t : task) : option future :=
  match t with
  | Jora => jora_future s
  | Seek => seek_future s
  end.

(** Both tasks submitted (lines 56-57), nothing collected yet. *)
Definition init : state :=
  {| jora_future := None; seek_future := None; yielded := [];
     all_jobs_data := []; out := preamble; at_pc := InLoop |}.

Definition settle (s : state) (t : task) (f : future) : state :=
  {| jora_future := match t with Jora => Some f | Seek => jora_future s end;
     seek_future := match t with Seek => Some f | Jora => seek_future s end;
     yielded := yielded s;
     all_jobs_data := all_jobs_data s;
     out := out s;
     at_pc := at_pc s |}.

Definition consume (s : state) (t : task) (f : future) : state :=
  let acc := collect (all_jobs_data s, out s) f in
  {| jora_future := jora_future s;
     seek_future := seek_future s;
     yielded := (yielded s ++ [t])%list;
     all_jobs_data := fst acc;
     out := snd acc;
     at_pc := at_pc s |}.

Definition goto (s : state) (p : pc) : state :=
  {| jora_future := jora_future s;
     seek_future := seek_future s;
     yielded := yielded s;
     all_jobs_data := all_jobs_data s;
     out := out s;
     at_pc := p |}.

Definition crawler_of (jora_crawler seek_crawler : Crawler) (t : task) : Crawler :=
  match t with
  | Jora => jora_crawler
  | Seek => seek_crawler
  end.

Definition label (t : task) : string :=
  match t with
  | Jora => "Jora"
  | Seek => "Seek"
  end.

(** The future of task [t] once its worker is done. *)
Definition settled_future (jora_crawler seek_crawler : Crawler) (t : task) : future :=
  fst (submit (crawler_of jora_crawler seek_crawler t) (label t) 1).

Inductive step (jora_crawler seek_crawler : Crawler) (fs : filesystem)
    : state -> state -> Prop :=
| worker_done : forall s t,
    (* a worker finishes [scrape_portal] and settles its future *)
    future_of s t = None ->
    step jora_crawler seek_crawler fs s
         (settle s t (settled_future jora_crawler seek_crawler t))
| loop_body : forall s t f,
    (* [as_completed] yields a settled future not yielded before; the body
       of the loop runs on it *)
    at_pc s = InLoop ->
    ~ In t (yielded s) ->
    future_of s t = Some f ->
    step jora_crawler seek_crawler fs s (consume s t f)
| loop_exit : forall s,
    (* [as_completed] has yielded every future it was given; leaving the
       [with] block then joins the workers, which have nothing left to do *)
    at_pc s = InLoop ->
    (forall t, In t (yielded s)) ->
    step jora_crawler seek_crawler fs s (goto s AfterPool)
| combine : forall s,
    (* lines 69-110 *)
    at_pc s = AfterPool ->
    step jora_crawler seek_crawler fs s
         (goto s (Finished (combine_and_save (all_jobs_data s) fs))).

Inductive reachable (jora_crawler seek_crawler : Crawler) (fs : filesystem)
    : state -> Prop :=
| reach_init : reachable jora_crawler seek_crawler fs init
| reach_step : forall s s',
    reachable jora_crawler seek_crawler fs s ->
    step jora_crawler seek_crawler fs s s' ->
    reachable jora_crawler seek_crawler fs s'.

(** Every submitted task has completed. *)
Definition all_settled (s : state) : Prop :=
  forall t, future_of s t <> None.

(** The sibling of a task. *)
Definition other (t : task) : task :=
  match t with
  | Jora => Seek
  | Seek => Jora
  end.

(** What the worker of a task printed during a run. *)
Definition task_out (r : run) (t : task) : list printed :=
  match t with
  | Jora => jora_out r
  | Seek => seek_out r
  end.

(** What holds of every state the pool can be in. *)
Record invariant (jora_crawler seek_crawler : Crawler) (fs : filesystem)
    (s : state) : Prop := {
  inv_future : forall t,
    future_of s t = None \/
    future_of s t = Some (settled_future jora_crawler seek_crawler t);
  inv_yielded : forall t, In t (yielded s) -> future_of s t <> None;
  inv_once : NoDup (yielded s);
  inv_data :
    (all_jobs_data s, out s)
    = fold_left collect
        (map (settled_future jora_crawler seek_crawler) (yielded s))
        ([], preamble);
  inv_left : at_pc s <> InLoop -> forall t, In t (yielded s);
  inv_saved : forall saved,
    at_pc s = Finished saved -> saved = combine_and_save (all_jobs_data s) fs
}.

(** The pool after [n] transitions. *)
Inductive reach_in (jora_crawler seek_crawler : Crawler) (fs : filesystem)
    : nat -> state -> Prop :=
| reach_in_init : reach_in jora_crawler seek_crawler fs 0 init
| reach_in_step : forall n s s',
    reach_in jora_crawler seek_crawler fs n s ->
    step jora_crawler seek_crawler fs s s' ->
    reach_in jora_crawler seek_crawler fs (S n) s'.

Definition unsettled (f : option future) : nat :=
  match f with
  | None => 1
  | Some _ => 0
  end.

(** The transitions a state still has before it: one per running worker,
    one per future not yet yielded, then the exit of the loop and the
    combining of the data. *)
Definition remaining (s : state) : nat :=
  unsettled (jora_future s) + unsettled (seek_future s)
  + (2 - length (yielded s))
  + match at_pc s with
    | InLoop => 2
    | AfterPool => 1
    | Finished _ => 0
    end.

(** The order of completion a run of the loop stands for. *)
Definition completion_of (l : list task) : completion :=
  match l with
  | Seek :: _ => SeekFirst
  | _ => JoraFirst
  end.

End Dispatch.

(** ** Sample producers

    The scenario of the test plan: Jora returns three records without a
    salary, Seek two complete ones. *)

Module Sample.

Definition jora_job (title : string) : record :=
  [("title", title); ("company", "Acme"); ("location", "Sydney");
   ("description", "d"); ("job_url", "https://au.jora.com/job/1");
   ("source", "Jora")].

Definition seek_job (title : string) : record :=
  [("title", title); ("company", "Initech"); ("location", "Perth");
   ("salary", "100k"); ("description", "d");
   ("job_url", "https://www.seek.com.au/job/2"); ("source", "Seek")].

Definition jora3 : Crawler :=
  {| scrape_jobs := fun _ =>
       Returns (PyList [jora_job "Welder"; jora_job "Nurse"; jora_job "Chef"]) |}.

Definition seek2 : Crawler :=
  {| scrape_jobs := fun _ =>
       Returns (PyList [seek_job "Engineer"; seek_job "Analyst"]) |}.

(** A producer that raises. *)
Definition broken : Crawler :=
  {| scrape_jobs := fun _ => Raises "HTTP 503" |}.

(** A producer that finds nothing. *)
Definition idle : Crawler :=
  {| scrape_jobs := fun _ => Returns (PyList []) |}.

(** A producer whose only record carries no [source]. *)
Definition unlabelled : Crawler :=
  {| scrape_jobs := fun _ =>
       Returns (PyList [[("title", "Baker"); ("company", "Crumbs")]]) |}.

(** A producer whose record carries a field outside the required ones. *)
Definition tagged : Crawler :=
  {| scrape_jobs := fun _ =>
       Returns (PyList [[("visa", "482"); ("title", "Fitter"); ("source", "Seek")]]) |}.

Definition no_disk : filesystem := fun _ => None.

End Sample.

(** * Properties *)

(** ** Membership and keys *)

Lemma mem_true_iff (k : string) (l : list string) :
  Str.mem k l = true <-> In k l.
Proof.
  unfold Str.mem. rewrite existsb_exists. split.
  - intros [x [Hin Heq]]. apply String.eqb_eq in Heq. now subst.
  - intros Hin. exists k. split; [assumption | apply String.eqb_refl].
Qed.

Lemma mem_false_iff (k : string) (l : list string) :
  Str.mem k l = false <-> ~ In k l.
Proof.
  rewrite <- mem_true_iff. destruct (Str.mem k l); split; congruence.
Qed.

Lemma get_Some_key (k v : string) (r : record) :
  get k r = Some v -> In k (keys r).
Proof.
  induction r as [|[k' v'] r IH]; simpl; [discriminate|].
  destruct (String.eqb_spec k k') as [->|Hne]; intros H.
  - now left.
  - right. now apply IH.
Qed.

Lemma get_None_iff (k : string) (r : record) :
  get k r = None <-> ~ In k (keys r).
Proof.
  induction r as [|[k' v'] r IH]; simpl.
  - tauto.
  - destruct (String.eqb_spec k k') as [->|Hne].
    + split; [discriminate | intros H; exfalso; apply H; now left].
    + rewrite IH. split; intros H; [intros [E|E]; [congruence | tauto] | tauto].
Qed.

Lemma add_keys_In (k : string) (ks seen : list string) :
  In k (pd.add_keys seen ks) <-> In k seen \/ In k ks.
Proof.
  revert seen. induction ks as [|x ks IH]; intros seen; simpl.
  - tauto.
  - destruct (Str.mem x seen) eqn:Hm; rewrite IH.
    + apply mem_true_iff in Hm. split; [tauto|].
      intros [H|[H|H]]; subst; tauto.
    + rewrite in_app_iff. simpl. tauto.
Qed.

Lemma add_keys_NoDup (ks seen : list string) :
  NoDup seen -> NoDup (pd.add_keys seen ks).
Proof.
  revert seen. induction ks as [|x ks IH]; intros seen Hnd; simpl; [assumption|].
  destruct (Str.mem x seen) eqn:Hm; apply IH; [assumption|].
  apply mem_false_iff in Hm.
  apply NoDup_app; [assumption | repeat constructor; simpl; tauto |].
  intros y Hy [<-|[]]. contradiction.
Qed.

(** With no repeated key to add, [add_keys] appends the new ones in order. *)
Lemma add_keys_app (ks seen : list string) :
  NoDup ks ->
  pd.add_keys seen ks
  = (seen ++ filter (fun k => negb (Str.mem k seen)) ks)%list.
Proof.
  revert seen. induction ks as [|x ks IH]; intros seen Hnd; simpl.
  - now rewrite app_nil_r.
  - inversion Hnd as [|? ? Hx Hks]; subst.
    destruct (Str.mem x seen) eqn:Hm; simpl.
    + now apply IH.
    + rewrite (IH _ Hks), <- app_assoc. simpl. do 2 f_equal.
      apply filter_ext_in. intros y Hy. f_equal.
      unfold Str.mem. rewrite existsb_app. simpl.
      destruct (String.eqb_spec y x) as [->|]; [contradiction|].
      now rewrite !orb_false_r.
Qed.

Lemma union_keys_from_In (k : string) (data : list record) (seen : list string) :
  In k (fold_left (fun seen r => pd.add_keys seen (keys r)) data seen)
  <-> In k seen \/ exists r, In r data /\ In k (keys r).
Proof.
  revert seen. induction data as [|r data IH]; intros seen; simpl.
  - split; [tauto | intros [H|[r [[] _]]]; assumption].
  - rewrite IH, add_keys_In. split.
    + intros [[H|H]|[r' [H1 H2]]]; [tauto | right; exists r; tauto
                                   | right; exists r'; tauto].
    + intros [H|[r' [[->|H1] H2]]]; [tauto | tauto | right; exists r'; tauto].
Qed.

(** A key is a column of the raw table exactly when some record has it. *)
Lemma union_keys_In (k : string) (data : list record) :
  In k (pd.union_keys data) <-> exists r, In r data /\ In k (keys r).
Proof.
  unfold pd.union_keys. rewrite union_keys_from_In. simpl. tauto.
Qed.

Lemma union_keys_NoDup (data : list record) : NoDup (pd.union_keys data).
Proof.
  unfold pd.union_keys. generalize (NoDup_nil string).
  generalize (@nil string) as seen.
  induction data as [|r data IH]; intros seen Hnd; simpl; [assumption|].
  apply IH. now apply add_keys_NoDup.
Qed.

(** ** Columns of a table *)

Lemma find_col_None_iff (k : string) (cs : list (string * list pd.cell)) :
  pd.find_col k cs = None <-> ~ In k (map fst cs).
Proof.
  induction cs as [|[c vs] cs IH]; simpl.
  - tauto.
  - destruct (String.eqb_spec k c) as [->|Hne].
    + split; [discriminate | intros H; exfalso; apply H; now left].
    + rewrite IH. split; intros H; [intros [E|E]; [congruence | tauto] | tauto].
Qed.

Lemma find_col_app (k : string) (cs cs' : list (string * list pd.cell)) :
  pd.find_col k (cs ++ cs')
  = match pd.find_col k cs with
    | Some vs => Some vs
    | None => pd.find_col k cs'
    end.
Proof.
  induction cs as [|[c vs] cs IH]; simpl; [reflexivity|].
  now destruct (String.eqb k c).
Qed.

(** A table built name by name gives back, under a name, what was put there. *)
Lemma find_col_map (F : string -> list pd.cell) (names : list string) (k : string) :
  pd.find_col k (map (fun n => (n, F n)) names)
  = if Str.mem k names then Some (F k) else None.
Proof.
  induction names as [|n names IH]; simpl; [reflexivity|].
  destruct (String.eqb_spec k n) as [->|Hne]; simpl; [reflexivity | exact IH].
Qed.

Lemma of_records_columns (data : list record) :
  pd.columns (pd.of_records data) = pd.union_keys data.
Proof.
  unfold pd.columns, pd.of_records. simpl.
  rewrite map_map. simpl. apply map_id.
Qed.

Lemma of_records_find_col (data : list record) (k : string) :
  pd.find_col k (pd.cols (pd.of_records data))
  = if Str.mem k (pd.union_keys data) then Some (map (get k) data) else None.
Proof.
  unfold pd.of_records. simpl.
  apply (find_col_map (fun k => map (get k) data)).
Qed.

(** ** Schema enforcement, lines 79-81 *)

Lemma ensure_required_fold (df : pd.DataFrame) :
  ensure_required df = fold_left fill_missing required_columns df.
Proof. reflexivity. Qed.

Lemma fill_missing_columns (req : list string) (df : pd.DataFrame) :
  pd.columns (fold_left fill_missing req df) = pd.add_keys (pd.columns df) req.
Proof.
  revert df. induction req as [|c req IH]; intros df; simpl; [reflexivity|].
  rewrite IH. unfold fill_missing.
  destruct (Str.mem c (pd.columns df)) eqn:Hm; [reflexivity|].
  unfold pd.setitem, pd.columns at 1. simpl. fold (pd.columns df).
  rewrite Hm, map_app. reflexivity.
Qed.

Lemma fill_missing_index_len (req : list string) (df : pd.DataFrame) :
  pd.index_len (fold_left fill_missing req df) = pd.index_len df.
Proof.
  revert df. induction req as [|c req IH]; intros df; simpl; [reflexivity|].
  rewrite IH. unfold fill_missing.
  now destruct (Str.mem c (pd.columns df)).
Qed.

(** A column that was there is left alone; a required one that was not is
    filled with the sentinel on every row. *)
Lemma fill_missing_find_col (req : list string) (df : pd.DataFrame) (k : string) :
  pd.find_col k (pd.cols (fold_left fill_missing req df))
  = match pd.find_col k (pd.cols df) with
    | Some vs => Some vs
    | None =>
        if Str.mem k req
        then Some (List.repeat (Some "N/A") (pd.index_len df))
        else None
    end.
Proof.
  revert df. induction req as [|c req IH]; intros df; simpl.
  - now destruct (pd.find_col k (pd.cols df)).
  - rewrite IH. unfold fill_missing.
    destruct (Str.mem c (pd.columns df)) eqn:Hm.
    + destruct (pd.find_col k (pd.cols df)) eqn:Hk; [reflexivity|].
      destruct (String.eqb_spec k c) as [->|Hne]; simpl; [|reflexivity].
      apply mem_true_iff in Hm. apply find_col_None_iff in Hk. contradiction.
    + unfold pd.setitem. simpl. rewrite Hm, find_col_app. simpl.
      destruct (pd.find_col k (pd.cols df)); [reflexivity|].
      destruct (String.eqb k c); simpl; reflexivity.
Qed.

(** ** Column selection, lines 84-85 *)

Lemma select_ok (cs : list (string * list pd.cell)) (names : list string) :
  (forall n, In n names -> In n (map fst cs)) ->
  exists sel,
    pd.select cs names = Ok sel /\
    map fst sel = names /\
    forall k, pd.find_col k sel
              = if Str.mem k names then pd.find_col k cs else None.
Proof.
  induction names as [|n names IH]; intros Hin; simpl.
  - exists []. repeat split.
  - destruct (pd.find_col n cs) as [vs|] eqn:Hn.
    + destruct IH as [sel [Hsel [Hfst Hfind]]].
      { intros m Hm. apply Hin. now right. }
      rewrite Hsel. simpl. exists ((n, vs) :: sel). repeat split.
      * simpl. now rewrite Hfst.
      * intros k. simpl.
        destruct (String.eqb_spec k n) as [->|Hne]; simpl; [now rewrite Hn|].
        apply Hfind.
    + exfalso. apply find_col_None_iff in Hn. apply Hn, Hin. now left.
Qed.

Lemma required_NoDup : NoDup required_columns.
Proof.
  unfold required_columns.
  repeat (constructor; [simpl; intuition discriminate|]). constructor.
Qed.

Lemma source_required : In "source" required_columns.
Proof. unfold required_columns. simpl. tauto. Qed.

Lemma ensure_required_columns (df : pd.DataFrame) :
  pd.columns (ensure_required df) = pd.add_keys (pd.columns df) required_columns.
Proof. rewrite ensure_required_fold. apply fill_missing_columns. Qed.

Lemma column_order_In (df : pd.DataFrame) (k : string) :
  In "source" (pd.columns df) ->
  (In k (column_order df) <-> In k (pd.columns df)).
Proof.
  intros Hs. unfold column_order. simpl. rewrite filter_In, negb_true_iff.
  destruct (String.eqb_spec k "source") as [->|Hne].
  - split; [intros _; assumption | now left].
  - split; [intros [E|[H _]]; [congruence | assumption] | intros H; right; tauto].
Qed.

(** The table of lines 75-85 is always built: no lookup fails.  It has one
    row per record, its columns are [column_order] of the table after
    schema enforcement, and each column holds what enforcement left there. *)
Lemma consolidate_ok (data : list record) :
  exists df,
    consolidate data = Ok df /\
    pd.index_len df = length data /\
    pd.columns df = column_order (ensure_required (pd.of_records data)) /\
    forall k,
      pd.find_col k (pd.cols df)
      = match pd.find_col k (pd.cols (pd.of_records data)) with
        | Some vs => Some vs
        | None =>
            if Str.mem k required_columns
            then Some (List.repeat (Some "N/A") (length data))
            else None
        end.
Proof.
  unfold consolidate, pd.getitem_list.
  remember (pd.of_records data) as df0 eqn:E0.
  remember (ensure_required df0) as df1 eqn:E1.
  assert (Hcol : forall k,
             pd.find_col k (pd.cols df1)
             = match pd.find_col k (pd.cols df0) with
               | Some vs => Some vs
               | None =>
                   if Str.mem k required_columns
                   then Some (List.repeat (Some "N/A") (length data))
                   else None
               end).
  { intros k. rewrite E1, ensure_required_fold, fill_missing_find_col.
    replace (pd.index_len df0) with (length data) by now rewrite E0.
    reflexivity. }
  assert (Hlen : pd.index_len df1 = length data).
  { rewrite E1, ensure_required_fold, fill_missing_index_len, E0. reflexivity. }
  assert (Hs : In "source" (pd.columns df1)).
  { rewrite E1, ensure_required_columns, add_keys_In.
    right. exact source_required. }
  clear E0 E1.
  destruct (select_ok (pd.cols df1) (column_order df1)) as [sel [Hsel [Hfst Hfind]]].
  { intros n Hn. exact (proj1 (column_order_In df1 n Hs) Hn). }
  rewrite Hsel. cbn [bind].
  eexists. split; [reflexivity|].
  cbn [pd.index_len pd.cols pd.columns].
  split; [exact Hlen | split; [exact Hfst|]].
  intros k. rewrite Hfind.
  destruct (Str.mem k (column_order df1)) eqn:Hm; [apply Hcol|].
  apply mem_false_iff in Hm. rewrite (column_order_In df1 k Hs) in Hm.
  apply find_col_None_iff in Hm.
  rewrite <- Hcol. symmetry. exact Hm.
Qed.

(** ** The cells of the consolidated table *)

Lemma consolidate_nrows (data : list record) (df : pd.DataFrame) :
  consolidate data = Ok df -> pd.nrows df = length data.
Proof.
  destruct (consolidate_ok data) as [df' [H [Hlen _]]].
  rewrite H. intros E. injection E as <-. exact Hlen.
Qed.

(** The header: [source], then the observed fields in order of first
    occurrence, then the required fields no record has. *)
Lemma consolidate_columns (data : list record) (df : pd.DataFrame) :
  consolidate data = Ok df ->
  pd.columns df
  = "source" ::
    filter (fun col => negb (String.eqb col "source"))
           (pd.union_keys data
            ++ filter (fun k => negb (Str.mem k (pd.union_keys data)))
                      required_columns)%list.
Proof.
  destruct (consolidate_ok data) as [df' [H [_ [Hcols _]]]].
  rewrite H. intros E. injection E as <-. rewrite Hcols.
  unfold column_order.
  rewrite ensure_required_columns, of_records_columns.
  rewrite (add_keys_app _ _ required_NoDup). reflexivity.
Qed.

(** A field some record has: each row holds its own record's value, or NaN
    when that record lacks the field. *)
Lemma consolidate_at_observed (data : list record) (df : pd.DataFrame)
    (i : nat) (r : record) (k : string) :
  consolidate data = Ok df ->
  nth_error data i = Some r ->
  In k (pd.union_keys data) ->
  pd.at_ df i k = Some (get k r).
Proof.
  destruct (consolidate_ok data) as [df' [H [_ [_ Hfind]]]].
  rewrite H. intros E Hi Hk. injection E as <-.
  unfold pd.at_. rewrite Hfind, of_records_find_col.
  apply mem_true_iff in Hk. rewrite Hk.
  now apply map_nth_error.
Qed.

(** A required field no record has: every row holds the sentinel. *)
Lemma consolidate_at_filled (data : list record) (df : pd.DataFrame)
    (i : nat) (k : string) :
  consolidate data = Ok df ->
  i < length data ->
  ~ In k (pd.union_keys data) ->
  In k required_columns ->
  pd.at_ df i k = Some (Some "N/A").
Proof.
  destruct (consolidate_ok data) as [df' [H [_ [_ Hfind]]]].
  rewrite H. intros E Hi Hk Hreq. injection E as <-.
  unfold pd.at_. rewrite Hfind, of_records_find_col.
  apply mem_false_iff in Hk. rewrite Hk.
  apply mem_true_iff in Hreq. rewrite Hreq.
  now apply nth_error_repeat.
Qed.

Lemma consolidate_has_column (data : list record) (df : pd.DataFrame) (k : string) :
  consolidate data = Ok df ->
  In k (pd.union_keys data) \/ In k required_columns ->
  In k (pd.columns df).
Proof.
  destruct (consolidate_ok data) as [df' [H [_ [Hcols _]]]].
  rewrite H. intros E Hk. injection E as <-. rewrite Hcols.
  assert (Hs : In "source" (pd.columns (ensure_required (pd.of_records data)))).
  { rewrite ensure_required_columns, add_keys_In. right. exact source_required. }
  apply (column_order_In _ k Hs).
  rewrite ensure_required_columns, add_keys_In, of_records_columns. exact Hk.
Qed.

Lemma record_key_observed (data : list record) (i : nat) (r : record) (k : string) :
  nth_error data i = Some r -> In k (keys r) -> In k (pd.union_keys data).
Proof.
  intros Hi Hk. apply union_keys_In. exists r. split; [|assumption].
  eapply nth_error_In; eassumption.
Qed.

(** ** What the loop gathers *)

Lemma collect_result (acc : list record) (out : list printed) (jobs : pyval) :
  collect (acc, out) (Result jobs) = ((acc ++ rows_from jobs)%list, out).
Proof.
  unfold collect. destruct jobs as [|[|r l]]; cbn [truthy extend rows_from].
  - now rewrite app_nil_r.
  - now rewrite app_nil_r.
  - reflexivity.
Qed.

(** The loop leaves in [all_jobs_data] the records of both tasks, in the
    order of completion, and prints nothing of its own. *)
Lemma gather_eq (jora_crawler seek_crawler : Crawler) (first : completion) :
  gather jora_crawler seek_crawler first
  = (concat (as_completed first
               (rows_from (fst (scrape_portal jora_crawler "Jora" 1)))
               (rows_from (fst (scrape_portal seek_crawler "Seek" 1)))),
     preamble).
Proof.
  unfold gather, submit.
  destruct (scrape_portal jora_crawler "Jora" 1) as [jv jo].
  destruct (scrape_portal seek_crawler "Seek" 1) as [sv so].
  cbn [fst]. destruct first; cbn [as_completed fold_left concat];
    rewrite !collect_result; cbn [app]; now rewrite app_nil_r.
Qed.

(** What [scrape_portal] returns, by what the producer did. *)
Lemma scrape_portal_rows (crawler : Crawler) (name : string) (pages : nat) :
  rows_from (fst (scrape_portal crawler name pages))
  = match scrape_jobs crawler pages with
    | Returns v => rows_from v
    | Raises _ => []
    end.
Proof.
  unfold scrape_portal.
  destruct (scrape_jobs crawler pages) as [e|[|[|r l]]]; reflexivity.
Qed.

(** ** The summary *)

Lemma total_cons (x : string * nat) (l : list (string * nat)) :
  total (x :: l) = snd x + total l.
Proof. reflexivity. Qed.

Lemma total_bump (v : string) (acc : list (string * nat)) :
  total (pd.bump v acc) = S (total acc).
Proof.
  induction acc as [|[k n] acc IH]; cbn [pd.bump]; [reflexivity|].
  destruct (String.eqb k v); rewrite !total_cons; cbn [snd]; lia.
Qed.

Lemma total_tally_from (s : list pd.cell) (acc : list (string * nat)) :
  total (fold_left (fun acc c => match c with
                                 | Some v => pd.bump v acc
                                 | None => acc
                                 end) s acc)
  = total acc + length (filter pd.notna s).
Proof.
  revert acc. induction s as [|[v|] s IH]; intros acc;
    cbn [fold_left filter pd.notna length].
  - lia.
  - rewrite IH, total_bump. lia.
  - apply IH.
Qed.

Lemma total_insert_desc (x : string * nat) (l : list (string * nat)) :
  total (pd.insert_desc x l) = snd x + total l.
Proof.
  induction l as [|y l IH]; cbn [pd.insert_desc]; [reflexivity|].
  destruct (snd x <? snd y)%nat; rewrite !total_cons; lia.
Qed.

(** The counts of a summary add up to the number of cells that are not
    missing. *)
Lemma total_value_counts (s : list pd.cell) :
  total (pd.value_counts s) = length (filter pd.notna s).
Proof.
  unfold pd.value_counts.
  assert (Hsort : forall t, total (fold_right pd.insert_desc [] t) = total t).
  { induction t as [|x t IH]; cbn [fold_right]; [reflexivity|].
    now rewrite total_insert_desc, IH, total_cons. }
  rewrite Hsort. unfold pd.tally. rewrite total_tally_from. reflexivity.
Qed.

(** The [source] column of the table is always there: the records' own
    values (NaN where a record has none) when some record has the field,
    the sentinel on every row when none has. *)
Lemma source_column (data : list record) (df : pd.DataFrame) :
  consolidate data = Ok df ->
  pd.getitem df "source"
  = Ok (if Str.mem "source" (pd.union_keys data)
        then map (get "source") data
        else List.repeat (Some "N/A") (length data)).
Proof.
  destruct (consolidate_ok data) as [df' [H [_ [_ Hfind]]]].
  rewrite H. intros E. injection E as <-.
  unfold pd.getitem. rewrite Hfind, of_records_find_col.
  destruct (Str.mem "source" (pd.union_keys data)); [reflexivity|].
  assert (Hm : Str.mem "source" required_columns = true)
    by (apply mem_true_iff; exact source_required).
  rewrite Hm. reflexivity.
Qed.

Lemma filter_notna_get (k : string) (data : list record) :
  length (filter pd.notna (map (get k) data))
  = length (filter (has_field k) data).
Proof.
  induction data as [|r data IH]; [reflexivity|].
  cbn [map filter]. unfold has_field at 1.
  destruct (get k r); cbn [pd.notna length]; now rewrite IH.
Qed.

Lemma filter_notna_repeat (v : string) (n : nat) :
  length (filter pd.notna (List.repeat (Some v) n)) = n.
Proof.
  induction n as [|n IH]; [reflexivity|].
  cbn [List.repeat filter pd.notna length]. now rewrite IH.
Qed.

(** The summary counts the rows that carry a source: all of them when no
    record has the field (the column is then the sentinel), otherwise the
    rows of the records that have it. *)
Lemma source_counts_total (data : list record) (df : pd.DataFrame) :
  consolidate data = Ok df ->
  exists counts,
    source_counts df = Ok counts /\
    total counts
    = if Str.mem "source" (pd.union_keys data)
      then length (filter (has_field "source") data)
      else length data.
Proof.
  intros H. unfold source_counts. rewrite (source_column _ _ H). cbn [bind].
  eexists. split; [reflexivity|]. rewrite total_value_counts.
  destruct (Str.mem "source" (pd.union_keys data)).
  - apply filter_notna_get.
  - apply filter_notna_repeat.
Qed.

(** ** [main] never raises *)

Lemma consolidated_table_Some (jora_crawler seek_crawler : Crawler)
    (first : completion) (df : pd.DataFrame) :
  consolidated_table jora_crawler seek_crawler first = Some (Ok df) ->
  fst (gather jora_crawler seek_crawler first) <> [] /\
  consolidate (fst (gather jora_crawler seek_crawler first)) = Ok df.
Proof.
  unfold consolidated_table.
  destruct (fst (gather jora_crawler seek_crawler first)) as [|r l];
    [discriminate|].
  intros E. injection E as E. split; [discriminate | exact E].
Qed.

(** With data, lines 69-106 write the table to [job_lists.csv] and print the
    summary of its [source] column. *)
Lemma combine_and_save_data (data : list record) (fs : filesystem) :
  data <> [] ->
  exists df counts,
    consolidate data = Ok df /\
    source_counts df = Ok counts /\
    exists before after,
      combine_and_save data fs
      = Ok (write fs output_filename (pd.to_csv df),
            (before ++ breakdown counts ++ after)%list).
Proof.
  intros Hne. destruct data as [|r l]; [contradiction|].
  destruct (consolidate_ok (r :: l)) as [df [H _]].
  destruct (source_counts_total _ _ H) as [counts [Hc _]].
  exists df, counts. split; [exact H | split; [exact Hc|]].
  unfold combine_and_save. rewrite H. cbn [bind]. rewrite Hc. cbn [bind].
  eexists. eexists. reflexivity.
Qed.

Lemma main_ok (jora_crawler seek_crawler : Crawler) (first : completion)
    (fs : filesystem) :
  exists r, main jora_crawler seek_crawler first fs = Ok r.
Proof.
  unfold main.
  destruct (gather jora_crawler seek_crawler first) as [data out].
  destruct data as [|r l].
  - cbn [combine_and_save bind]. eexists. reflexivity.
  - destruct (combine_and_save_data (r :: l) fs) as [df [c [_ [_ [b [a E]]]]]];
      [discriminate|].
    rewrite E. cbn [bind]. eexists. reflexivity.
Qed.

(** A run with data writes its table to [job_lists.csv] and prints the
    summary computed from the table's [source] column. *)
Lemma main_emits (jora_crawler seek_crawler : Crawler) (first : completion)
    (fs : filesystem) (df : pd.DataFrame) :
  consolidated_table jora_crawler seek_crawler first = Some (Ok df) ->
  exists r counts before after,
    main jora_crawler seek_crawler first fs = Ok r /\
    source_counts df = Ok counts /\
    disk r = write fs output_filename (pd.to_csv df) /\
    main_out r = (before ++ breakdown counts ++ after)%list.
Proof.
  intros H. apply consolidated_table_Some in H. destruct H as [Hne Hdf].
  unfold main. destruct (gather jora_crawler seek_crawler first) as [data out].
  cbn [fst] in Hne, Hdf.
  destruct (combine_and_save_data data fs Hne)
    as [df' [counts [Hdf' [Hc [before [after E]]]]]].
  rewrite Hdf in Hdf'. injection Hdf' as <-.
  rewrite E. cbn [bind fst snd].
  eexists. exists counts, (out ++ before)%list, after.
  split; [reflexivity|]. split; [exact Hc|]. split; [reflexivity|].
  cbn [main_out]. now rewrite app_assoc.
Qed.

Lemma filter_all {A : Type} (p : A -> bool) (l : list A) :
  (forall x, In x l -> p x = true) -> filter p l = l.
Proof.
  induction l as [|x l IH]; intros H; [reflexivity|]. cbn [filter].
  rewrite (H x (or_introl eq_refl)). f_equal. apply IH.
  intros y Hy. apply H. now right.
Qed.

Lemma has_field_key (k : string) (r : record) :
  has_field k r = true <-> In k (keys r).
Proof.
  unfold has_field. destruct (get k r) as [v|] eqn:E.
  - split; [intros _; eapply get_Some_key; eassumption | reflexivity].
  - apply get_None_iff in E. split; [discriminate | contradiction].
Qed.

(** A record's value under any of its fields is the cell of its row. *)
Lemma extra_fields_lookup (jora_crawler seek_crawler : Crawler)
    (first : completion) (df : pd.DataFrame) (i : nat) (r : record)
    (k v : string) :
  consolidated_table jora_crawler seek_crawler first = Some (Ok df) ->
  nth_error (fst (gather jora_crawler seek_crawler first)) i = Some r ->
  get k r = Some v ->
  pd.at_ df i k = Some (Some v).
Proof.
  intros Ht Hi Hv.
  apply consolidated_table_Some in Ht. destruct Ht as [_ Hdf].
  rewrite <- Hv. eapply consolidate_at_observed; [eassumption..|].
  eapply record_key_observed; [eassumption|].
  eapply get_Some_key; eassumption.
Qed.

(** ** The scenario, run *)

Example scenario_rows :
  option_map (fun t => match t with
                       | Ok df => Some (pd.nrows df)
                       | KeyError _ => None
                       end)
             (consolidated_table Sample.jora3 Sample.seek2 JoraFirst)
  = Some (Some 5).
Proof. vm_compute. reflexivity. Qed.

Example scenario_summary :
  option_map (fun t => df <- t ;; source_counts df)
             (consolidated_table Sample.jora3 Sample.seek2 JoraFirst)
  = Some (Ok [("Jora", 3); ("Seek", 2)]).
Proof. vm_compute. reflexivity. Qed.

Example scenario_header_jora_first :
  option_map (fun t => df <- t ;; Ok (header (pd.to_csv df)))
             (consolidated_table Sample.jora3 Sample.seek2 JoraFirst)
  = Some (Ok ["source"; "title"; "company"; "location"; "description";
              "job_url"; "salary"]).
Proof. vm_compute. reflexivity. Qed.

Example scenario_header_seek_first :
  option_map (fun t => df <- t ;; Ok (header (pd.to_csv df)))
             (consolidated_table Sample.jora3 Sample.seek2 SeekFirst)
  = Some (Ok ["source"; "title"; "company"; "location"; "salary";
              "description"; "job_url"]).
Proof. vm_compute. reflexivity. Qed.

Example scenario_first_line :
  option_map (fun t => df <- t ;; Ok (hd [] (lines (pd.to_csv df))))
             (consolidated_table Sample.jora3 Sample.seek2 JoraFirst)
  = Some (Ok ["Jora"; "Welder"; "Acme"; "Sydney"; "d";
              "https://au.jora.com/job/1"; ""]).
Proof. vm_compute. reflexivity. Qed.

(** * The claims *)

(** ** C1: schema completeness *)

(** C1, as stated, fails on the scenario of the test plan: Jora's first
    record has no salary, Seek's records have one, and the cell of that row
    under [salary] is missing (NaN), not the sentinel. *)
Lemma schema_per_record_counterexample :
  exists df r,
    consolidated_table Sample.jora3 Sample.seek2 JoraFirst = Some (Ok df) /\
    nth_error (fst (gather Sample.jora3 Sample.seek2 JoraFirst)) 0 = Some r /\
    In "salary" required_columns /\
    get "salary" r = None /\
    pd.at_ df 0 "salary" = Some None /\
    pd.at_ df 0 "salary" <> Some (Some "N/A").
Proof.
  eexists. eexists.
  split; [vm_compute; reflexivity|].
  split; [vm_compute; reflexivity|].
  split; [unfold required_columns; simpl; tauto|].
  split; [reflexivity|].
  split; [reflexivity | discriminate].
Qed.

(** C1, amended: every required field is a column of the consolidated
    table.  A row keeps its record's value where the record has the field;
    where no record of the run has the field, every row holds ["N/A"];
    where the record lacks the field and another record of the run has it,
    the cell is missing (NaN), not ["N/A"]. *)
Theorem schema_completeness (jora_crawler seek_crawler : Crawler)
    (first : completion) (df : pd.DataFrame) (i : nat) (r : record)
    (f : string) :
  let data := fst (gather jora_crawler seek_crawler first) in
  consolidated_table jora_crawler seek_crawler first = Some (Ok df) ->
  nth_error data i = Some r ->
  In f required_columns ->
  In f (pd.columns df) /\
  (forall v, get f r = Some v -> pd.at_ df i f = Some (Some v)) /\
  ((forall r', In r' data -> get f r' = None) ->
   pd.at_ df i f = Some (Some "N/A")) /\
  (get f r = None ->
   (exists r', In r' data /\ get f r' <> None) ->
   pd.at_ df i f = Some None).
Proof.
  intros data Ht Hi Hf.
  apply consolidated_table_Some in Ht. destruct Ht as [_ Hdf]. fold data in Hdf.
  split; [|split; [|split]].
  - eapply consolidate_has_column; [eassumption | now right].
  - intros v Hv. rewrite <- Hv.
    apply (consolidate_at_observed data df i r f Hdf Hi).
    eapply record_key_observed; [eassumption|].
    eapply get_Some_key; eassumption.
  - intros Hnone. apply (consolidate_at_filled data df i f Hdf).
    + apply nth_error_Some. congruence.
    + rewrite union_keys_In. intros [r' [Hr' Hk]].
      apply (proj1 (get_None_iff f r') (Hnone r' Hr')). exact Hk.
    + exact Hf.
  - intros Hr [r' [Hr' Hk]]. rewrite <- Hr.
    apply (consolidate_at_observed data df i r f Hdf Hi).
    apply union_keys_In. exists r'. split; [assumption|].
    destruct (get f r') as [v|] eqn:E; [|congruence].
    eapply get_Some_key; eassumption.
Qed.

Lemma schema_completeness_witness :
  exists df r,
    consolidated_table Sample.jora3 Sample.seek2 JoraFirst = Some (Ok df) /\
    nth_error (fst (gather Sample.jora3 Sample.seek2 JoraFirst)) 0 = Some r /\
    In "salary" (pd.columns df) /\
    (forall v, get "salary" r = Some v -> pd.at_ df 0 "salary" = Some (Some v)) /\
    ((forall r', In r' (fst (gather Sample.jora3 Sample.seek2 JoraFirst)) ->
                 get "salary" r' = None) ->
     pd.at_ df 0 "salary" = Some (Some "N/A")) /\
    (get "salary" r = None ->
     (exists r', In r' (fst (gather Sample.jora3 Sample.seek2 JoraFirst)) /\
                 get "salary" r' <> None) ->
     pd.at_ df 0 "salary" = Some None).
Proof.
  eexists. eexists.
  split; [vm_compute; reflexivity|].
  split; [vm_compute; reflexivity|].
  apply (schema_completeness Sample.jora3 Sample.seek2 JoraFirst _ 0 _ "salary").
  - vm_compute. reflexivity.
  - vm_compute. reflexivity.
  - unfold required_columns. simpl. tauto.
Defined.

(** ** C5: count agreement *)

(** C5, as stated, fails when a record without a [source] shares a run with
    records that have one: its row is in the table, its source cell is
    missing, and [value_counts] leaves missing cells out.  Four rows, and a
    summary that adds up to three. *)
Lemma count_agreement_counterexample :
  exists df counts,
    consolidated_table Sample.jora3 Sample.unlabelled JoraFirst = Some (Ok df) /\
    source_counts df = Ok counts /\
    counts = [("Jora", 3)] /\
    pd.nrows df = 4 /\
    total counts <> pd.nrows df.
Proof.
  eexists. eexists.
  split; [vm_compute; reflexivity|].
  split; [vm_compute; reflexivity|].
  split; [reflexivity|].
  split; [reflexivity|].
  vm_compute. discriminate.
Qed.

(** C5, amended: for every run that emits an artifact in which every raw
    record has a [source] field, or none has, the per-source counts of the
    printed summary add up to the number of rows of the consolidated
    table. *)
Theorem count_agreement (jora_crawler seek_crawler : Crawler)
    (first : completion) (fs : filesystem) (df : pd.DataFrame) :
  let data := fst (gather jora_crawler seek_crawler first) in
  consolidated_table jora_crawler seek_crawler first = Some (Ok df) ->
  (forall r, In r data -> has_field "source" r = true) \/
  (forall r, In r data -> has_field "source" r = false) ->
  exists r counts before after,
    main jora_crawler seek_crawler first fs = Ok r /\
    disk r output_filename = Some (pd.to_csv df) /\
    main_out r = (before ++ breakdown counts ++ after)%list /\
    source_counts df = Ok counts /\
    total counts = pd.nrows df.
Proof.
  intros data Ht Hsrc.
  destruct (main_emits _ _ _ fs _ Ht) as [r [counts [b [a [Hm [Hc [Hd Ho]]]]]]].
  exists r, counts, b, a.
  split; [exact Hm|]. split.
  { rewrite Hd. unfold write. now rewrite String.eqb_refl. }
  split; [exact Ho|]. split; [exact Hc|].
  apply consolidated_table_Some in Ht. destruct Ht as [_ Hdf]. fold data in Hdf.
  destruct (source_counts_total data df Hdf) as [counts' [Hc' Htot]].
  rewrite Hc in Hc'. injection Hc' as <-.
  rewrite Htot, (consolidate_nrows data df Hdf).
  destruct (Str.mem "source" (pd.union_keys data)) eqn:Hmem; [|reflexivity].
  destruct Hsrc as [Hall|Hnone].
  - now rewrite (filter_all _ _ Hall).
  - apply mem_true_iff, union_keys_In in Hmem. destruct Hmem as [r' [Hr' Hk]].
    apply has_field_key in Hk. rewrite (Hnone r' Hr') in Hk. discriminate.
Qed.

Lemma count_agreement_witness :
  exists df r counts before after,
    consolidated_table Sample.jora3 Sample.seek2 SeekFirst = Some (Ok df) /\
    main Sample.jora3 Sample.seek2 SeekFirst Sample.no_disk = Ok r /\
    disk r output_filename = Some (pd.to_csv df) /\
    main_out r = (before ++ breakdown counts ++ after)%list /\
    source_counts df = Ok counts /\
    total counts = pd.nrows df.
Proof.
  eexists.
  assert (Ht : consolidated_table Sample.jora3 Sample.seek2 SeekFirst = Some (Ok _))
    by (vm_compute; reflexivity).
  destruct (count_agreement Sample.jora3 Sample.seek2 SeekFirst Sample.no_disk _ Ht)
    as [r [counts [b [a H]]]].
  - left. intros r Hr. vm_compute in Hr.
    repeat (destruct Hr as [<-|Hr]; [reflexivity|]). contradiction.
  - exists r, counts, b, a. split; [exact Ht | exact H].
Defined.

(** ** C6: column order *)

(** C6, as stated, fails when a required field is absent from every input
    record: the field is appended after the observed ones, so [salary]
    closes the header instead of standing fifth. *)
Lemma header_counterexample :
  exists df,
    consolidated_table Sample.jora3 Sample.broken JoraFirst = Some (Ok df) /\
    header (pd.to_csv df)
    = ["source"; "title"; "company"; "location"; "description"; "job_url";
       "salary"] /\
    ~ exists extra,
        header (pd.to_csv df)
        = (["source"; "title"; "company"; "location"; "salary"; "description";
            "job_url"] ++ extra)%list.
Proof.
  eexists.
  split; [vm_compute; reflexivity|].
  split; [reflexivity|].
  intros [extra H]. vm_compute in H. discriminate H.
Qed.

(** C6, amended: the first column of every emitted table is [source],
    whatever the order of the input fields; the remaining columns are the
    other observed fields in order of first occurrence, followed by the
    required fields that no input record has, in the order title, company,
    location, salary, description, job_url. *)
Theorem source_first_header (jora_crawler seek_crawler : Crawler)
    (first : completion) (df : pd.DataFrame) :
  let data := fst (gather jora_crawler seek_crawler first) in
  let other := fun col => negb (String.eqb col "source") in
  let unobserved := fun col => negb (Str.mem col (pd.union_keys data)) in
  consolidated_table jora_crawler seek_crawler first = Some (Ok df) ->
  header (pd.to_csv df)
  = "source" ::
    (filter other (pd.union_keys data)
     ++ filter other
          (filter unobserved
             ["title"; "company"; "location"; "salary"; "description";
              "job_url"]))%list.
Proof.
  intros data other unobserved Ht.
  apply consolidated_table_Some in Ht. destruct Ht as [_ Hdf]. fold data in Hdf.
  cbn [pd.to_csv header]. rewrite (consolidate_columns data df Hdf).
  rewrite filter_app. fold other unobserved. f_equal. f_equal.
  unfold required_columns.
  change ["title"; "company"; "location"; "salary"; "description"; "job_url";
          "source"]
    with (["title"; "company"; "location"; "salary"; "description"; "job_url"]
          ++ ["source"])%list.
  rewrite !filter_app.
  assert (Hlast : filter other (filter unobserved ["source"]) = []).
  { cbn [filter]. destruct (unobserved "source"); reflexivity. }
  rewrite Hlast. now rewrite app_nil_r.
Qed.

Lemma source_first_header_witness :
  exists df,
    consolidated_table Sample.jora3 Sample.broken JoraFirst = Some (Ok df) /\
    header (pd.to_csv df)
    = "source" ::
      (filter (fun col => negb (String.eqb col "source"))
         (pd.union_keys (fst (gather Sample.jora3 Sample.broken JoraFirst)))
       ++ filter (fun col => negb (String.eqb col "source"))
            (filter (fun col =>
                       negb (Str.mem col
                               (pd.union_keys
                                  (fst (gather Sample.jora3 Sample.broken
                                          JoraFirst)))))
               ["title"; "company"; "location"; "salary"; "description";
                "job_url"]))%list.
Proof.
  eexists. split; [vm_compute; reflexivity|].
  apply (source_first_header Sample.jora3 Sample.broken JoraFirst).
  vm_compute. reflexivity.
Defined.

(** ** C7: extra fields *)

(** C7: whatever field a record carries, required or not, is a column of
    the consolidated table and of the header written from it, and the
    record's row holds the record's value under it: enforcement and
    reordering strip nothing. *)
Theorem extra_fields_preserved (jora_crawler seek_crawler : Crawler)
    (first : completion) (df : pd.DataFrame) (i : nat) (r : record)
    (k v : string) :
  consolidated_table jora_crawler seek_crawler first = Some (Ok df) ->
  nth_error (fst (gather jora_crawler seek_crawler first)) i = Some r ->
  get k r = Some v ->
  In k (pd.columns df) /\
  In k (header (pd.to_csv df)) /\
  pd.at_ df i k = Some (Some v).
Proof.
  intros Ht Hi Hv.
  apply consolidated_table_Some in Ht. destruct Ht as [_ Hdf].
  assert (Hk : In k (pd.union_keys (fst (gather jora_crawler seek_crawler first)))).
  { eapply record_key_observed; [eassumption|].
    eapply get_Some_key; eassumption. }
  assert (Hcol : In k (pd.columns df)).
  { eapply consolidate_has_column; [eassumption | now left]. }
  split; [exact Hcol|]. split; [exact Hcol|].
  rewrite <- Hv. eapply consolidate_at_observed; eassumption.
Qed.

Lemma extra_fields_preserved_witness :
  exists df,
    consolidated_table Sample.jora3 Sample.tagged JoraFirst = Some (Ok df) /\
    In "visa" (pd.columns df) /\
    In "visa" (header (pd.to_csv df)) /\
    pd.at_ df 3 "visa" = Some (Some "482").
Proof.
  eexists. split; [vm_compute; reflexivity|].
  eapply (extra_fields_preserved Sample.jora3 Sample.tagged JoraFirst _ 3).
  - vm_compute. reflexivity.
  - vm_compute. reflexivity.
  - reflexivity.
Defined.

(** ** Rows *)

Lemma to_csv_lines_length (df : pd.DataFrame) :
  length (lines (pd.to_csv df)) = pd.nrows df.
Proof.
  unfold pd.to_csv, pd.nrows. cbn [lines].
  now rewrite length_map, length_seq.
Qed.

Lemma as_completed_length (first : completion) (ra rb : list record) :
  length (concat (as_completed first ra rb)) = length ra + length rb.
Proof.
  destruct first; cbn [as_completed concat]; rewrite app_nil_r, length_app; lia.
Qed.

(** When both producers return lists, the loop gathers exactly these. *)
Lemma gather_returns (jora_crawler seek_crawler : Crawler) (first : completion)
    (ra rb : list record) :
  scrape_jobs jora_crawler 1 = Returns (PyList ra) ->
  scrape_jobs seek_crawler 1 = Returns (PyList rb) ->
  fst (gather jora_crawler seek_crawler first) = concat (as_completed first ra rb).
Proof.
  intros Ha Hb. rewrite gather_eq. cbn [fst].
  rewrite !scrape_portal_rows, Ha, Hb. reflexivity.
Qed.

(** The table of a run has one row per gathered record; there is no table
    exactly when nothing was gathered. *)
Lemma consolidated_table_rows (jora_crawler seek_crawler : Crawler)
    (first : completion) :
  match consolidated_table jora_crawler seek_crawler first with
  | Some (Ok df) =>
      pd.nrows df = length (fst (gather jora_crawler seek_crawler first)) /\
      fst (gather jora_crawler seek_crawler first) <> []
  | Some (KeyError _) => False
  | None => fst (gather jora_crawler seek_crawler first) = []
  end.
Proof.
  unfold consolidated_table.
  destruct (fst (gather jora_crawler seek_crawler first)) as [|r l] eqn:E;
    [reflexivity|].
  destruct (consolidate_ok (r :: l)) as [df [H [Hlen _]]].
  rewrite H. split; [exact Hlen | discriminate].
Qed.

(** ** C3: union count *)

(** C3: when producer A returns [a] records and producer B returns [b],
    the flattened sequence has [a + b] records and the consolidated table
    [a + b] rows, as has the file written; no table is emitted only when
    [a + b = 0]. *)
Theorem union_count (jora_crawler seek_crawler : Crawler) (first : completion)
    (a b : nat) (ra rb : list record) :
  scrape_jobs jora_crawler 1 = Returns (PyList ra) ->
  scrape_jobs seek_crawler 1 = Returns (PyList rb) ->
  length ra = a ->
  length rb = b ->
  length (fst (gather jora_crawler seek_crawler first)) = a + b /\
  match consolidated_table jora_crawler seek_crawler first with
  | Some (Ok df) =>
      pd.nrows df = a + b /\ length (lines (pd.to_csv df)) = a + b
  | Some (KeyError _) => False
  | None => a + b = 0
  end.
Proof.
  intros Ha Hb <- <-.
  assert (Hlen : length (fst (gather jora_crawler seek_crawler first))
                 = length ra + length rb).
  { rewrite (gather_returns _ _ first ra rb Ha Hb). apply as_completed_length. }
  split; [exact Hlen|].
  pose proof (consolidated_table_rows jora_crawler seek_crawler first) as Hrows.
  destruct (consolidated_table jora_crawler seek_crawler first) as [[df|k]|].
  - destruct Hrows as [Hn _]. rewrite to_csv_lines_length, Hn. now split.
  - exact Hrows.
  - rewrite <- Hlen, Hrows. reflexivity.
Qed.

Lemma union_count_witness :
  length (fst (gather Sample.jora3 Sample.seek2 SeekFirst)) = 3 + 2 /\
  match consolidated_table Sample.jora3 Sample.seek2 SeekFirst with
  | Some (Ok df) => pd.nrows df = 3 + 2 /\ length (lines (pd.to_csv df)) = 3 + 2
  | Some (KeyError _) => False
  | None => 3 + 2 = 0
  end.
Proof.
  apply (union_count Sample.jora3 Sample.seek2 SeekFirst 3 2
           [Sample.jora_job "Welder"; Sample.jora_job "Nurse"; Sample.jora_job "Chef"]
           [Sample.seek_job "Engineer"; Sample.seek_job "Analyst"]);
    reflexivity.
Defined.

(** ** C10: no deduplication *)

(** C10: the records gathered are the two returned sequences laid end to
    end, nothing dropped, whether or not records repeat; the table has one
    row for each, in the same position and holding its record's values, so
    its row count is the sum of the two lengths. *)
Theorem no_deduplication (jora_crawler seek_crawler : Crawler)
    (first : completion) (ra rb : list record) :
  scrape_jobs jora_crawler 1 = Returns (PyList ra) ->
  scrape_jobs seek_crawler 1 = Returns (PyList rb) ->
  fst (gather jora_crawler seek_crawler first) = concat (as_completed first ra rb) /\
  match consolidated_table jora_crawler seek_crawler first with
  | Some (Ok df) =>
      pd.nrows df = length ra + length rb /\
      forall i r k v,
        nth_error (concat (as_completed first ra rb)) i = Some r ->
        get k r = Some v ->
        pd.at_ df i k = Some (Some v)
  | Some (KeyError _) => False
  | None => length ra + length rb = 0
  end.
Proof.
  intros Ha Hb.
  pose proof (gather_returns _ _ first ra rb Ha Hb) as Hg.
  split; [exact Hg|].
  pose proof (consolidated_table_rows jora_crawler seek_crawler first) as Hrows.
  destruct (consolidated_table jora_crawler seek_crawler first) as [[df|k]|] eqn:Ht.
  - destruct Hrows as [Hn _]. split.
    + rewrite Hn, Hg. apply as_completed_length.
    + intros i r k v Hi Hv. rewrite <- Hg in Hi.
      eapply extra_fields_lookup; eassumption.
  - exact Hrows.
  - rewrite <- (as_completed_length first), <- Hg, Hrows. reflexivity.
Qed.

(** Both producers return the same three records: six rows. *)
Lemma no_deduplication_witness :
  fst (gather Sample.jora3 Sample.jora3 JoraFirst)
  = concat (as_completed JoraFirst
              [Sample.jora_job "Welder"; Sample.jora_job "Nurse"; Sample.jora_job "Chef"]
              [Sample.jora_job "Welder"; Sample.jora_job "Nurse"; Sample.jora_job "Chef"]) /\
  match consolidated_table Sample.jora3 Sample.jora3 JoraFirst with
  | Some (Ok df) =>
      pd.nrows df = 3 + 3 /\
      forall i r k v,
        nth_error (concat (as_completed JoraFirst
              [Sample.jora_job "Welder"; Sample.jora_job "Nurse"; Sample.jora_job "Chef"]
              [Sample.jora_job "Welder"; Sample.jora_job "Nurse"; Sample.jora_job "Chef"]))
          i = Some r ->
        get k r = Some v ->
        pd.at_ df i k = Some (Some v)
  | Some (KeyError _) => False
  | None => 3 + 3 = 0
  end.
Proof.
  apply (no_deduplication Sample.jora3 Sample.jora3 JoraFirst
           [Sample.jora_job "Welder"; Sample.jora_job "Nurse"; Sample.jora_job "Chef"]
           [Sample.jora_job "Welder"; Sample.jora_job "Nurse"; Sample.jora_job "Chef"]);
    reflexivity.
Defined.

(** ** The wrapper *)

Lemma scrape_portal_raises (crawler : Crawler) (name : string) (pages : nat)
    (e : string) :
  scrape_jobs crawler pages = Raises e ->
  scrape_portal crawler name pages
  = (PyList [],
     [ Line (Str.nl ++ banner);
       Line ("STARTING " ++ Str.upper name ++ " SCRAPING");
       Line banner;
       Line ("Error during " ++ name ++ " scraping: " ++ e) ]).
Proof. intros H. unfold scrape_portal. rewrite H. reflexivity. Qed.

Lemma scrape_portal_falsy (crawler : Crawler) (name : string) (pages : nat)
    (v : pyval) :
  scrape_jobs crawler pages = Returns v ->
  truthy v = false ->
  scrape_portal crawler name pages
  = (PyList [],
     [ Line (Str.nl ++ banner);
       Line ("STARTING " ++ Str.upper name ++ " SCRAPING");
       Line banner;
       Line (" " ++ name ++ " scraping failed or returned no data") ]).
Proof. intros H Hv. unfold scrape_portal. rewrite H, Hv. reflexivity. Qed.

(** What each worker printed is what its [scrape_portal] call printed. *)
Lemma main_task_out (jora_crawler seek_crawler : Crawler) (first : completion)
    (fs : filesystem) (r : run) (t : Dispatch.task) :
  main jora_crawler seek_crawler first fs = Ok r ->
  Dispatch.task_out r t
  = snd (scrape_portal (Dispatch.crawler_of jora_crawler seek_crawler t)
           (Dispatch.label t) 1).
Proof.
  unfold main. destruct (gather jora_crawler seek_crawler first) as [data out].
  destruct (combine_and_save data fs) as [saved|k]; cbn [bind]; [|discriminate].
  intros E. injection E as <-. unfold submit.
  destruct t; cbn [Dispatch.task_out Dispatch.crawler_of Dispatch.label
                   jora_out seek_out].
  - now destruct (scrape_portal jora_crawler "Jora" 1).
  - now destruct (scrape_portal seek_crawler "Seek" 1).
Qed.

(** With nothing gathered, [main] leaves the disk alone and prints the
    no-data message. *)
Lemma main_no_data (jora_crawler seek_crawler : Crawler) (first : completion)
    (fs : filesystem) :
  fst (gather jora_crawler seek_crawler first) = [] ->
  exists r,
    main jora_crawler seek_crawler first fs = Ok r /\
    disk r = fs /\
    main_out r
    = (preamble ++
       [ Line (Str.nl ++ " No job data was collected from either portal.");
         Line "Please check the individual scraper outputs above for errors." ])%list.
Proof.
  intros H. unfold main.
  pose proof (gather_eq jora_crawler seek_crawler first) as Hg.
  destruct (gather jora_crawler seek_crawler first) as [data out].
  cbn [fst] in H. subst data. injection Hg as _ ->.
  cbn [combine_and_save bind fst snd]. eexists. repeat split.
Qed.

Lemma empty_handed_rows (crawler : Crawler) (name : string) (pages : nat) :
  empty_handed (scrape_jobs crawler pages) = true ->
  rows_from (fst (scrape_portal crawler name pages)) = [].
Proof.
  rewrite scrape_portal_rows.
  destruct (scrape_jobs crawler pages) as [e|[|[|r l]]]; cbn; congruence.
Qed.

(** ** C2: failure isolation *)

(** C2: when one producer raises and the other returns [b] records, the
    wrapper of the failing one returns the empty list, having printed a
    diagnostic that contains its label; [main] ends normally with that
    diagnostic in the worker's output; the consolidated table has exactly
    [b] rows (none is emitted only when [b = 0]). *)
Theorem failure_isolation (jora_crawler seek_crawler : Crawler)
    (failing : Dispatch.task) (first : completion) (fs : filesystem)
    (e : string) (rb : list record) :
  let crawler := Dispatch.crawler_of jora_crawler seek_crawler in
  let diagnostic := "Error during " ++ Dispatch.label failing ++ " scraping: " ++ e in
  scrape_jobs (crawler failing) 1 = Raises e ->
  scrape_jobs (crawler (Dispatch.other failing)) 1 = Returns (PyList rb) ->
  fst (scrape_portal (crawler failing) (Dispatch.label failing) 1) = PyList [] /\
  In (Line diagnostic)
     (snd (scrape_portal (crawler failing) (Dispatch.label failing) 1)) /\
  Str.contains diagnostic (Dispatch.label failing) /\
  (exists r,
     main jora_crawler seek_crawler first fs = Ok r /\
     In (Line diagnostic) (Dispatch.task_out r failing)) /\
  match consolidated_table jora_crawler seek_crawler first with
  | Some (Ok df) => pd.nrows df = length rb
  | Some (KeyError _) => False
  | None => length rb = 0
  end.
Proof.
  intros crawler diagnostic Hfail Hother.
  pose proof (scrape_portal_raises _ (Dispatch.label failing) 1 e Hfail) as Hsp.
  assert (Hin : In (Line diagnostic)
                   (snd (scrape_portal (crawler failing) (Dispatch.label failing) 1))).
  { rewrite Hsp. cbn [snd]. right. right. right. left. reflexivity. }
  split; [now rewrite Hsp|]. split; [exact Hin|]. split.
  { exists "Error during ", (" scraping: " ++ e). reflexivity. }
  split.
  { destruct (main_ok jora_crawler seek_crawler first fs) as [r Hr].
    exists r. split; [exact Hr|].
    rewrite (main_task_out _ _ _ _ _ failing Hr). exact Hin. }
  assert (Hlen : length (fst (gather jora_crawler seek_crawler first)) = length rb).
  { rewrite gather_eq. cbn [fst]. rewrite !scrape_portal_rows.
    destruct failing; cbn [Dispatch.other Dispatch.crawler_of crawler] in *;
      rewrite Hfail, Hother; cbn [rows_from];
      rewrite (as_completed_length first); cbn [length]; lia. }
  pose proof (consolidated_table_rows jora_crawler seek_crawler first) as Hrows.
  destruct (consolidated_table jora_crawler seek_crawler first) as [[df|k]|].
  - destruct Hrows as [Hn _]. now rewrite Hn.
  - exact Hrows.
  - now rewrite <- Hlen, Hrows.
Qed.

(** Jora raises, Seek returns two records. *)
Lemma failure_isolation_witness :
  fst (scrape_portal Sample.broken "Jora" 1) = PyList [] /\
  In (Line ("Error during " ++ "Jora" ++ " scraping: " ++ "HTTP 503"))
     (snd (scrape_portal Sample.broken "Jora" 1)) /\
  Str.contains ("Error during " ++ "Jora" ++ " scraping: " ++ "HTTP 503") "Jora" /\
  (exists r,
     main Sample.broken Sample.seek2 SeekFirst Sample.no_disk = Ok r /\
     In (Line ("Error during " ++ "Jora" ++ " scraping: " ++ "HTTP 503"))
        (jora_out r)) /\
  match consolidated_table Sample.broken Sample.seek2 SeekFirst with
  | Some (Ok df) => pd.nrows df = 2
  | Some (KeyError _) => False
  | None => 2 = 0
  end.
Proof.
  apply (failure_isolation Sample.broken Sample.seek2 Dispatch.Jora SeekFirst
           Sample.no_disk "HTTP 503"
           [Sample.seek_job "Engineer"; Sample.seek_job "Analyst"]);
    reflexivity.
Defined.

(** ** C4: the empty run *)

(** C4: when both producers come back empty-handed, by a caught failure or
    with no data, no table is built, [main] ends normally, the disk is as
    it was before the run (nothing written, nothing overwritten) and the
    no-data message is printed. *)
Theorem empty_run (jora_crawler seek_crawler : Crawler) (first : completion)
    (fs : filesystem) :
  empty_handed (scrape_jobs jora_crawler 1) = true ->
  empty_handed (scrape_jobs seek_crawler 1) = true ->
  consolidated_table jora_crawler seek_crawler first = None /\
  exists r,
    main jora_crawler seek_crawler first fs = Ok r /\
    disk r = fs /\
    In (Line (Str.nl ++ " No job data was collected from either portal."))
       (main_out r) /\
    forall f, ~ In (FileSizeLine f) (main_out r).
Proof.
  intros Hj Hs.
  assert (Hdata : fst (gather jora_crawler seek_crawler first) = []).
  { rewrite gather_eq. cbn [fst].
    rewrite (empty_handed_rows _ "Jora" 1 Hj), (empty_handed_rows _ "Seek" 1 Hs).
    now destruct first. }
  split.
  - unfold consolidated_table. now rewrite Hdata.
  - destruct (main_no_data _ _ _ fs Hdata) as [r [Hr [Hd Ho]]].
    exists r. split; [exact Hr|]. split; [exact Hd|]. rewrite Ho. split.
    + apply in_or_app. right. left. reflexivity.
    + intros f Hf. apply in_app_or in Hf. destruct Hf as [Hf|Hf].
      * unfold preamble in Hf. cbn [In] in Hf.
        repeat (destruct Hf as [Hf|Hf]; [discriminate Hf|]). exact Hf.
      * cbn [In] in Hf.
        repeat (destruct Hf as [Hf|Hf]; [discriminate Hf|]). exact Hf.
Qed.

(** One producer raises, the other finds nothing. *)
Lemma empty_run_witness :
  consolidated_table Sample.broken Sample.idle JoraFirst = None /\
  exists r,
    main Sample.broken Sample.idle JoraFirst Sample.no_disk = Ok r /\
    disk r = Sample.no_disk /\
    In (Line (Str.nl ++ " No job data was collected from either portal."))
       (main_out r) /\
    forall f, ~ In (FileSizeLine f) (main_out r).
Proof.
  apply (empty_run Sample.broken Sample.idle JoraFirst Sample.no_disk);
    reflexivity.
Defined.

(** ** C9: passthrough and falsy coercion *)

(** C9: a truthy value returned by the producer (a non-empty list) comes
    out of [scrape_portal] unchanged; a falsy one ([None] or the empty
    list) comes out as the empty list, with the "failed or returned no
    data" line printed, which is also what a producer that raises comes out
    as: the dispatcher sees the same value in both cases. *)
Theorem wrapper_passthrough (crawler : Crawler) (name : string) (pages : nat)
    (v : pyval) :
  scrape_jobs crawler pages = Returns v ->
  (truthy v = true ->
   (exists r l, v = PyList (r :: l)) /\
   fst (scrape_portal crawler name pages) = v) /\
  (truthy v = false ->
   (v = PyNone \/ v = PyList []) /\
   fst (scrape_portal crawler name pages) = PyList [] /\
   In (Line (" " ++ name ++ " scraping failed or returned no data"))
      (snd (scrape_portal crawler name pages)) /\
   forall failed e,
     scrape_jobs failed pages = Raises e ->
     fst (scrape_portal failed name pages)
     = fst (scrape_portal crawler name pages)).
Proof.
  intros H. split; intros Hv.
  - split.
    + destruct v as [|[|r l]]; try discriminate. now exists r, l.
    + unfold scrape_portal. now rewrite H, Hv.
  - rewrite (scrape_portal_falsy _ name _ _ H Hv). cbn [fst snd].
    split; [|split; [reflexivity|split]].
    + destruct v as [|[|r l]]; [now left | now right | discriminate].
    + right. right. right. left. reflexivity.
    + intros failed e He. now rewrite (scrape_portal_raises _ name _ _ He).
Qed.

Lemma wrapper_passthrough_witness :
  (truthy (PyList []) = true ->
   (exists r l, PyList [] = PyList (r :: l)) /\
   fst (scrape_portal Sample.idle "Seek" 1) = PyList []) /\
  (truthy (PyList []) = false ->
   (PyList [] = PyNone \/ PyList [] = PyList []) /\
   fst (scrape_portal Sample.idle "Seek" 1) = PyList [] /\
   In (Line (" " ++ "Seek" ++ " scraping failed or returned no data"))
      (snd (scrape_portal Sample.idle "Seek" 1)) /\
   forall failed e,
     scrape_jobs failed 1 = Raises e ->
     fst (scrape_portal failed "Seek" 1)
     = fst (scrape_portal Sample.idle "Seek" 1)).
Proof.
  apply (wrapper_passthrough Sample.idle "Seek" 1 (PyList [])). reflexivity.
Defined.

(** ** The pool *)

Section Pool.

Variables (jora_crawler seek_crawler : Crawler) (fs : filesystem).

Import Dispatch.

Lemma future_of_settle (s : state) (t t' : task) (f : future) :
  future_of (settle s t f) t'
  = if task_eqb t t' then Some f else future_of s t'.
Proof. destruct t, t'; reflexivity. Qed.

Lemma invariant_init : invariant jora_crawler seek_crawler fs init.
Proof.
  split; cbn [init future_of yielded all_jobs_data out at_pc map fold_left].
  - intros []; now left.
  - intros t [].
  - constructor.
  - reflexivity.
  - congruence.
  - discriminate.
Qed.

Lemma invariant_step (s s' : state) :
  invariant jora_crawler seek_crawler fs s ->
  step jora_crawler seek_crawler fs s s' ->
  invariant jora_crawler seek_crawler fs s'.
Proof.
  intros [Hfut Hy Honce Hdata Hleft Hsaved] Hstep.
  destruct Hstep as [s t Hnone | s t f Hpc Hnew Hf | s Hpc Hall | s Hpc].
  - (* a worker settles its future *)
    split; cbn [settle yielded all_jobs_data out at_pc]; try assumption.
    + intros t'. rewrite future_of_settle.
      destruct t, t'; cbn [task_eqb]; try (now right); apply Hfut.
    + intros t' Hin. rewrite future_of_settle.
      destruct (task_eqb t t'); [discriminate | now apply Hy].
  - (* the loop body runs on a settled future *)
    split; cbn [consume yielded all_jobs_data out at_pc future_of];
      try assumption.
    + intros t' Hin. apply in_app_or in Hin.
      change (future_of (consume s t f) t') with (future_of s t').
      destruct Hin as [Hin|[<-|[]]]; [now apply Hy | congruence].
    + apply NoDup_app; [assumption | repeat constructor; simpl; tauto |].
      intros t' Hin [<-|[]]. contradiction.
    + rewrite map_app, fold_left_app, <- Hdata. cbn [map fold_left].
      destruct (Hfut t) as [E|E]; [congruence|].
      rewrite Hf in E. injection E as <-.
      now destruct (collect (all_jobs_data s, out s) f).
    + congruence.
    + intros saved E. rewrite Hpc in E. discriminate.
  - (* the loop is exhausted *)
    split; cbn [goto yielded all_jobs_data out at_pc]; try assumption.
    + intros _. exact Hall.
    + discriminate.
  - (* the data is combined *)
    split; cbn [goto yielded all_jobs_data out at_pc]; try assumption.
    + intros _. apply Hleft. congruence.
    + intros saved E. now injection E as <-.
Qed.

Lemma reachable_invariant (s : state) :
  reachable jora_crawler seek_crawler fs s ->
  invariant jora_crawler seek_crawler fs s.
Proof.
  induction 1 as [|s s' _ IH Hstep];
    [exact invariant_init | exact (invariant_step s s' IH Hstep)].
Qed.

(** A loop that has yielded every future, each once, has yielded the two
    in one of the two orders. *)
Lemma yielded_both (l : list task) :
  NoDup l -> (forall t, In t l) -> l = [Jora; Seek] \/ l = [Seek; Jora].
Proof.
  intros Hnd Hall.
  destruct l as [|a [|b [|c l]]].
  - destruct (Hall Jora).
  - destruct a; [destruct (Hall Seek) as [E|[]] | destruct (Hall Jora) as [E|[]]];
      discriminate.
  - inversion Hnd as [|? ? Ha _]; subst.
    destruct a, b; try (exfalso; apply Ha; now left); [now left | now right].
  - exfalso. inversion Hnd as [|? ? Ha Hnd']; subst.
    inversion Hnd' as [|? ? Hb _]; subst.
    destruct a, b, c; cbn [In] in Ha, Hb; tauto.
Qed.

Lemma gather_of_yielded (l : list task) :
  l = [Jora; Seek] \/ l = [Seek; Jora] ->
  fold_left collect (map (settled_future jora_crawler seek_crawler) l)
            ([], preamble)
  = gather jora_crawler seek_crawler (completion_of l).
Proof. intros [->| ->]; reflexivity. Qed.

End Pool.

(** Every order of completion is a run of the pool that ends with the data
    combined. *)
Lemma run_completes (jora_crawler seek_crawler : Crawler) (fs : filesystem)
    (first : completion) :
  exists s,
    Dispatch.reachable jora_crawler seek_crawler fs s /\
    Dispatch.at_pc s
    = Dispatch.Finished
        (combine_and_save (fst (gather jora_crawler seek_crawler first)) fs).
Proof.
  set (a := match first with JoraFirst => Dispatch.Jora | SeekFirst => Dispatch.Seek end).
  set (b := Dispatch.other a).
  set (fa := Dispatch.settled_future jora_crawler seek_crawler a).
  set (fb := Dispatch.settled_future jora_crawler seek_crawler b).
  set (s1 := Dispatch.settle Dispatch.init a fa).
  set (s2 := Dispatch.consume s1 a fa).
  set (s3 := Dispatch.settle s2 b fb).
  set (s4 := Dispatch.consume s3 b fb).
  set (s5 := Dispatch.goto s4 Dispatch.AfterPool).
  assert (H5 : Dispatch.reachable jora_crawler seek_crawler fs s5).
  { apply Dispatch.reach_step with (s := s4).
    2:{ apply Dispatch.loop_exit; [reflexivity|].
        intros t. subst s4 s3 s2 s1 b a. destruct first, t; cbn; tauto. }
    apply Dispatch.reach_step with (s := s3).
    2:{ apply Dispatch.loop_body; [reflexivity | |].
        - subst s3 s2 s1 b a. destruct first; cbn; intros [E|[]]; discriminate.
        - subst s3 b a. now destruct first. }
    apply Dispatch.reach_step with (s := s2).
    2:{ apply Dispatch.worker_done. subst s2 s1 b a. now destruct first. }
    apply Dispatch.reach_step with (s := s1).
    2:{ apply Dispatch.loop_body; [reflexivity | intros [] |].
        subst s1 a. now destruct first. }
    apply Dispatch.reach_step with (s := Dispatch.init);
      [apply Dispatch.reach_init | apply Dispatch.worker_done].
    subst a. now destruct first. }
  exists (Dispatch.goto s5
            (Dispatch.Finished (combine_and_save (Dispatch.all_jobs_data s5) fs))).
  split.
  - apply Dispatch.reach_step with (s := s5); [exact H5 | now apply Dispatch.combine].
  - cbn [Dispatch.goto Dispatch.at_pc]. do 2 f_equal.
    pose proof (Dispatch.inv_data _ _ _ _ (reachable_invariant _ _ _ _ H5)) as Hd.
    apply (f_equal fst) in Hd.
    subst s5 s4 s3 s2 s1 fa fb b a. destruct first; exact Hd.
Qed.

(** ** C8: the join barrier *)

(** C8, as stated, fails for the flattening: line 64 extends
    [all_jobs_data] inside the waiting loop.  Here Jora's three records are
    already in the list while Seek's task is still running. *)
Lemma partial_flatten_counterexample :
  exists s,
    Dispatch.reachable Sample.jora3 Sample.seek2 Sample.no_disk s /\
    Dispatch.at_pc s = Dispatch.InLoop /\
    Dispatch.seek_future s = None /\
    Dispatch.all_jobs_data s
    = [Sample.jora_job "Welder"; Sample.jora_job "Nurse"; Sample.jora_job "Chef"].
Proof.
  set (f := Dispatch.settled_future Sample.jora3 Sample.seek2 Dispatch.Jora).
  set (s1 := Dispatch.settle Dispatch.init Dispatch.Jora f).
  exists (Dispatch.consume s1 Dispatch.Jora f).
  split; [|repeat split].
  apply Dispatch.reach_step with (s := s1).
  - apply Dispatch.reach_step with (s := Dispatch.init);
      [apply Dispatch.reach_init | now apply Dispatch.worker_done].
  - apply Dispatch.loop_body; [reflexivity | intros [] | reflexivity].
Qed.

(** C8, amended: the main thread leaves the waiting loop only when every
    submitted task has completed, and lines 69-110 (the table, the file,
    the summary) run only after that, on the complete results of both
    tasks.  The flattening is done inside the loop, one future at a time,
    each consumed only once it has settled. *)
Theorem merge_after_join (jora_crawler seek_crawler : Crawler) (fs : filesystem)
    (s : Dispatch.state) :
  Dispatch.reachable jora_crawler seek_crawler fs s ->
  (forall t, In t (Dispatch.yielded s) -> Dispatch.future_of s t <> None) /\
  (Dispatch.at_pc s <> Dispatch.InLoop ->
   Dispatch.all_settled s /\
   exists first,
     (Dispatch.all_jobs_data s, Dispatch.out s)
     = gather jora_crawler seek_crawler first) /\
  (forall saved,
     Dispatch.at_pc s = Dispatch.Finished saved ->
     Dispatch.all_settled s /\
     exists first,
       saved = combine_and_save (fst (gather jora_crawler seek_crawler first)) fs).
Proof.
  intros Hreach.
  destruct (reachable_invariant _ _ _ _ Hreach)
    as [Hfut Hy Honce Hdata Hleft Hsaved].
  assert (Hafter : Dispatch.at_pc s <> Dispatch.InLoop ->
                   Dispatch.all_settled s /\
                   exists first,
                     (Dispatch.all_jobs_data s, Dispatch.out s)
                     = gather jora_crawler seek_crawler first).
  { intros Hpc. specialize (Hleft Hpc). split.
    - intros t. apply Hy, Hleft.
    - exists (Dispatch.completion_of (Dispatch.yielded s)).
      rewrite Hdata. apply gather_of_yielded.
      now apply yielded_both. }
  split; [exact Hy|]. split; [exact Hafter|].
  intros saved Hpc.
  destruct Hafter as [Hall [first Hg]]; [congruence|].
  split; [exact Hall|]. exists first.
  rewrite (Hsaved saved Hpc), <- Hg. reflexivity.
Qed.

(** The state in which the loop has just been left, Seek having completed
    first. *)
Lemma merge_after_join_witness :
  let f := Dispatch.settled_future Sample.jora3 Sample.seek2 in
  let s :=
    Dispatch.goto
      (Dispatch.consume
         (Dispatch.consume
            (Dispatch.settle
               (Dispatch.settle Dispatch.init Dispatch.Seek (f Dispatch.Seek))
               Dispatch.Jora (f Dispatch.Jora))
            Dispatch.Seek (f Dispatch.Seek))
         Dispatch.Jora (f Dispatch.Jora))
      Dispatch.AfterPool in
  Dispatch.reachable Sample.jora3 Sample.seek2 Sample.no_disk s /\
  (forall t, In t (Dispatch.yielded s) -> Dispatch.future_of s t <> None) /\
  (Dispatch.at_pc s <> Dispatch.InLoop ->
   Dispatch.all_settled s /\
   exists first,
     (Dispatch.all_jobs_data s, Dispatch.out s)
     = gather Sample.jora3 Sample.seek2 first) /\
  (forall saved,
     Dispatch.at_pc s = Dispatch.Finished saved ->
     Dispatch.all_settled s /\
     exists first,
       saved = combine_and_save (fst (gather Sample.jora3 Sample.seek2 first))
                 Sample.no_disk).
Proof.
  intros f s.
  assert (Hreach : Dispatch.reachable Sample.jora3 Sample.seek2 Sample.no_disk s).
  { unfold s.
    eapply Dispatch.reach_step.
    2:{ apply Dispatch.loop_exit; [reflexivity|]. intros []; simpl; tauto. }
    eapply Dispatch.reach_step.
    2:{ apply Dispatch.loop_body; [reflexivity | | reflexivity].
        simpl. intros [E|[]]. discriminate. }
    eapply Dispatch.reach_step.
    2:{ apply Dispatch.loop_body; [reflexivity | intros [] | reflexivity]. }
    eapply Dispatch.reach_step.
    2:{ apply (Dispatch.worker_done _ _ _ _ Dispatch.Jora). reflexivity. }
    eapply Dispatch.reach_step.
    2:{ apply (Dispatch.worker_done _ _ _ _ Dispatch.Seek). reflexivity. }
    apply Dispatch.reach_init. }
  split; [exact Hreach|].
  exact (merge_after_join Sample.jora3 Sample.seek2 Sample.no_disk s Hreach).
Defined.

(** * Further properties of [main.py] *)

(** ** [main] as a whole *)


(** [job_lists.csv] is the only file a run touches.  With data the file is
    replaced by the table, whatever it held; without, it is left as it
    was. *)
Theorem only_output_file_written (jora_crawler seek_crawler : Crawler)
    (first : completion) (fs : filesystem) :
  exists r,
    main jora_crawler seek_crawler first fs = Ok r /\
    (forall path, path <> output_filename -> disk r path = fs path) /\
    match consolidated_table jora_crawler seek_crawler first with
    | Some (Ok df) => disk r output_filename = Some (pd.to_csv df)
    | Some (KeyError _) => False
    | None => disk r output_filename = fs output_filename
    end.
Proof.
  pose proof (consolidated_table_rows jora_crawler seek_crawler first) as Hrows.
  destruct (consolidated_table jora_crawler seek_crawler first) as [[df|k]|] eqn:Ht.
  - destruct (main_emits _ _ _ fs _ Ht) as [r [counts [b [a [Hm [_ [Hd _]]]]]]].
    exists r. split; [exact Hm|]. rewrite Hd. unfold write. split.
    + intros path Hp. destruct (String.eqb_spec path output_filename); congruence.
    + now rewrite String.eqb_refl.
  - contradiction.
  - destruct (main_no_data _ _ _ fs Hrows) as [r [Hm [Hd _]]].
    exists r. split; [exact Hm|]. rewrite Hd. now split.
Qed.

(** ** The header *)

Lemma consolidate_columns_NoDup (data : list record) (df : pd.DataFrame) :
  consolidate data = Ok df -> NoDup (pd.columns df).
Proof.
  intros H. rewrite (consolidate_columns data df H).
  rewrite <- (add_keys_app _ _ required_NoDup).
  constructor.
  - rewrite filter_In, String.eqb_refl. intros [_ E]. discriminate.
  - apply NoDup_filter, add_keys_NoDup, union_keys_NoDup.
Qed.

(** No column name occurs twice in the header: [source] and every other
    field head exactly one column. *)
Theorem header_names_distinct (jora_crawler seek_crawler : Crawler)
    (first : completion) (df : pd.DataFrame) :
  consolidated_table jora_crawler seek_crawler first = Some (Ok df) ->
  NoDup (header (pd.to_csv df)).
Proof.
  intros Ht. apply consolidated_table_Some in Ht. destruct Ht as [_ Hdf].
  exact (consolidate_columns_NoDup _ _ Hdf).
Qed.

Lemma header_names_distinct_witness :
  exists df,
    consolidated_table Sample.jora3 Sample.tagged SeekFirst = Some (Ok df) /\
    NoDup (header (pd.to_csv df)).
Proof.
  eexists. split; [vm_compute; reflexivity|].
  apply (header_names_distinct Sample.jora3 Sample.tagged SeekFirst).
  vm_compute. reflexivity.
Defined.

(** The header holds the required fields and the fields some record has,
    and nothing else. *)
Theorem header_fields (jora_crawler seek_crawler : Crawler)
    (first : completion) (df : pd.DataFrame) (k : string) :
  consolidated_table jora_crawler seek_crawler first = Some (Ok df) ->
  In k (header (pd.to_csv df)) <->
  In k required_columns \/
  exists r, In r (fst (gather jora_crawler seek_crawler first)) /\ In k (keys r).
Proof.
  intros Ht. apply consolidated_table_Some in Ht. destruct Ht as [_ Hdf].
  rewrite <- union_keys_In. split.
  - cbn [pd.to_csv header]. rewrite (consolidate_columns _ _ Hdf).
    rewrite <- (add_keys_app _ _ required_NoDup).
    intros [<-|Hin].
    + left. exact source_required.
    + apply filter_In in Hin. destruct Hin as [Hin _].
      apply add_keys_In in Hin. tauto.
  - intros H. apply (consolidate_has_column _ _ k Hdf). tauto.
Qed.

Lemma header_fields_witness :
  exists df,
    consolidated_table Sample.jora3 Sample.tagged SeekFirst = Some (Ok df) /\
    (In "visa" (header (pd.to_csv df)) <->
     In "visa" required_columns \/
     exists r, In r (fst (gather Sample.jora3 Sample.tagged SeekFirst)) /\
               In "visa" (keys r)).
Proof.
  eexists. split; [vm_compute; reflexivity|].
  apply (header_fields Sample.jora3 Sample.tagged SeekFirst).
  vm_compute. reflexivity.
Defined.

(** ** The shape of the table and of the file *)

Lemma find_col_In (k : string) (vs : list pd.cell)
    (cs : list (string * list pd.cell)) :
  NoDup (map fst cs) -> In (k, vs) cs -> pd.find_col k cs = Some vs.
Proof.
  induction cs as [|[c ws] cs IH]; intros Hnd Hin; [destruct Hin|].
  cbn [map fst] in Hnd. inversion Hnd as [|? ? Hc Hnd']; subst.
  cbn [pd.find_col]. destruct Hin as [E|Hin].
  - injection E as -> ->. now rewrite String.eqb_refl.
  - destruct (String.eqb_spec k c) as [->|Hne]; [|now apply IH].
    exfalso. apply Hc. apply in_map_iff. now exists (c, vs).
Qed.

(** The table is rectangular, and so is the file: every column has one
    cell per gathered record, the file one line per record, every line one
    field per column of the header. *)
Theorem table_rectangular (jora_crawler seek_crawler : Crawler)
    (first : completion) (df : pd.DataFrame) :
  consolidated_table jora_crawler seek_crawler first = Some (Ok df) ->
  pd.rectangular df /\
  length (lines (pd.to_csv df))
  = length (fst (gather jora_crawler seek_crawler first)) /\
  forall line, In line (lines (pd.to_csv df)) ->
               length line = length (header (pd.to_csv df)).
Proof.
  intros Ht. apply consolidated_table_Some in Ht. destruct Ht as [_ Hdf].
  pose proof (consolidate_columns_NoDup _ _ Hdf) as Hnd.
  pose proof (consolidate_nrows _ _ Hdf) as Hn. unfold pd.nrows in Hn.
  split; [|split].
  - intros c vs Hin.
    pose proof (find_col_In c vs (pd.cols df) Hnd Hin) as Hfind.
    destruct (consolidate_ok (fst (gather jora_crawler seek_crawler first)))
      as [df' [H [_ [_ Hcol]]]].
    rewrite Hdf in H. injection H as <-.
    rewrite Hcol, of_records_find_col in Hfind. rewrite Hn.
    destruct (Str.mem c (pd.union_keys _)).
    + injection Hfind as <-. apply length_map.
    + destruct (Str.mem c required_columns); [|discriminate].
      injection Hfind as <-. apply repeat_length.
  - now rewrite to_csv_lines_length.
  - intros line Hin. unfold pd.to_csv in *. cbn [lines header] in *.
    apply in_map_iff in Hin. destruct Hin as [i [<- _]].
    unfold pd.row, pd.columns. now rewrite !length_map.
Qed.

Lemma table_rectangular_witness :
  exists df,
    consolidated_table Sample.jora3 Sample.seek2 JoraFirst = Some (Ok df) /\
    pd.rectangular df /\
    length (lines (pd.to_csv df))
    = length (fst (gather Sample.jora3 Sample.seek2 JoraFirst)) /\
    forall line, In line (lines (pd.to_csv df)) ->
                 length line = length (header (pd.to_csv df)).
Proof.
  eexists. split; [vm_compute; reflexivity|].
  apply (table_rectangular Sample.jora3 Sample.seek2 JoraFirst).
  vm_compute. reflexivity.
Defined.

(** ** From the table to the file *)

Lemma find_col_position (k : string) (vs : list pd.cell)
    (cs : list (string * list pd.cell)) :
  pd.find_col k cs = Some vs -> exists j, nth_error cs j = Some (k, vs).
Proof.
  induction cs as [|[c ws] cs IH]; cbn [pd.find_col]; [discriminate|].
  destruct (String.eqb_spec k c) as [->|Hne]; intros H.
  - injection H as ->. now exists 0.
  - destruct (IH H) as [j Hj]. now exists (S j).
Qed.

(** The cell of row [i] under column [k] is written, rendered, on line [i]
    of the file at the place [k] has in the header. *)
Lemma to_csv_field (df : pd.DataFrame) (i : nat) (k : string) (c : pd.cell) :
  i < pd.index_len df ->
  pd.at_ df i k = Some c ->
  exists j line,
    nth_error (header (pd.to_csv df)) j = Some k /\
    nth_error (lines (pd.to_csv df)) i = Some line /\
    nth_error line j = Some (pd.render c).
Proof.
  unfold pd.at_. intros Hi Hat.
  destruct (pd.find_col k (pd.cols df)) as [vs|] eqn:Hfind; [|discriminate].
  destruct (find_col_position _ _ _ Hfind) as [j Hj].
  exists j, (map pd.render (pd.row df i)).
  unfold pd.to_csv. cbn [header lines]. split; [|split].
  - unfold pd.columns. now rewrite (map_nth_error fst j (pd.cols df) Hj).
  - rewrite nth_error_map, nth_error_seq.
    apply Nat.ltb_lt in Hi. rewrite Hi. reflexivity.
  - unfold pd.row, pd.cell in *. rewrite !nth_error_map, Hj. cbn [option_map snd].
    now rewrite (nth_error_nth vs i None Hat).
Qed.

(** A value a record carries is in the file: on the record's line, in the
    field under the key's column. *)
Theorem file_holds_record_values (jora_crawler seek_crawler : Crawler)
    (first : completion) (df : pd.DataFrame) (i : nat) (r : record)
    (k v : string) :
  consolidated_table jora_crawler seek_crawler first = Some (Ok df) ->
  nth_error (fst (gather jora_crawler seek_crawler first)) i = Some r ->
  get k r = Some v ->
  exists j line,
    nth_error (header (pd.to_csv df)) j = Some k /\
    nth_error (lines (pd.to_csv df)) i = Some line /\
    nth_error line j = Some v.
Proof.
  intros Ht Hi Hv.
  pose proof (extra_fields_lookup _ _ _ _ _ _ _ _ Ht Hi Hv) as Hat.
  apply consolidated_table_Some in Ht. destruct Ht as [_ Hdf].
  apply (to_csv_field df i k (Some v)); [|exact Hat].
  change (pd.index_len df) with (pd.nrows df).
  rewrite (consolidate_nrows _ _ Hdf). apply nth_error_Some. congruence.
Qed.

Lemma file_holds_record_values_witness :
  exists df j line,
    consolidated_table Sample.jora3 Sample.tagged JoraFirst = Some (Ok df) /\
    nth_error (header (pd.to_csv df)) j = Some "visa" /\
    nth_error (lines (pd.to_csv df)) 3 = Some line /\
    nth_error line j = Some "482".
Proof.
  eexists.
  assert (Ht : consolidated_table Sample.jora3 Sample.tagged JoraFirst = Some (Ok _))
    by (vm_compute; reflexivity).
  destruct (file_holds_record_values Sample.jora3 Sample.tagged JoraFirst _ 3
              [("visa", "482"); ("title", "Fitter"); ("source", "Seek")]
              "visa" "482" Ht)
    as [j [line H]]; [reflexivity | reflexivity|].
  exists j, line. split; [exact Ht | exact H].
Defined.

(** What the file shows for a field a record lacks: the empty field when
    another record of the run has the field, ["N/A"] when the field is a
    required one that no record has. *)
Theorem file_shows_missing_values (jora_crawler seek_crawler : Crawler)
    (first : completion) (df : pd.DataFrame) (i : nat) (r : record)
    (k : string) :
  let data := fst (gather jora_crawler seek_crawler first) in
  consolidated_table jora_crawler seek_crawler first = Some (Ok df) ->
  nth_error data i = Some r ->
  get k r = None ->
  ((exists r', In r' data /\ In k (keys r')) ->
   exists j line,
     nth_error (header (pd.to_csv df)) j = Some k /\
     nth_error (lines (pd.to_csv df)) i = Some line /\
     nth_error line j = Some "") /\
  ((forall r', In r' data -> ~ In k (keys r')) ->
   In k required_columns ->
   exists j line,
     nth_error (header (pd.to_csv df)) j = Some k /\
     nth_error (lines (pd.to_csv df)) i = Some line /\
     nth_error line j = Some "N/A").
Proof.
  intros data Ht Hi Hk.
  apply consolidated_table_Some in Ht. destruct Ht as [_ Hdf]. fold data in Hdf.
  assert (Hlt : i < pd.index_len df).
  { change (pd.index_len df) with (pd.nrows df).
    rewrite (consolidate_nrows _ _ Hdf). apply nth_error_Some. congruence. }
  split.
  - intros Hsome. apply (to_csv_field df i k None Hlt).
    rewrite <- Hk. apply (consolidate_at_observed data df i r k Hdf Hi).
    now apply union_keys_In.
  - intros Hnone Hreq. apply (to_csv_field df i k (Some "N/A") Hlt).
    apply (consolidate_at_filled data df i k Hdf); [|
      rewrite union_keys_In; intros [r' [Hr' Hin]]; exact (Hnone r' Hr' Hin) |
      exact Hreq].
    apply nth_error_Some. congruence.
Qed.

Lemma file_shows_missing_values_witness :
  exists df,
    consolidated_table Sample.jora3 Sample.seek2 JoraFirst = Some (Ok df) /\
    ((exists r', In r' (fst (gather Sample.jora3 Sample.seek2 JoraFirst)) /\
                 In "salary" (keys r')) ->
     exists j line,
       nth_error (header (pd.to_csv df)) j = Some "salary" /\
       nth_error (lines (pd.to_csv df)) 0 = Some line /\
       nth_error line j = Some "") /\
    ((forall r', In r' (fst (gather Sample.jora3 Sample.seek2 JoraFirst)) ->
                 ~ In "salary" (keys r')) ->
     In "salary" required_columns ->
     exists j line,
       nth_error (header (pd.to_csv df)) j = Some "salary" /\
       nth_error (lines (pd.to_csv df)) 0 = Some line /\
       nth_error line j = Some "N/A").
Proof.
  eexists. split; [vm_compute; reflexivity|].
  apply (file_shows_missing_values Sample.jora3 Sample.seek2 JoraFirst _ 0
           (Sample.jora_job "Welder") "salary").
  - vm_compute. reflexivity.
  - reflexivity.
  - reflexivity.
Defined.

(** ** The summary, label by label *)

Lemma count_of_snoc (k : string) (s : list pd.cell) (c : pd.cell) :
  pd.count_of k (s ++ [c])
  = pd.count_of k s
    + match c with
      | Some v => if String.eqb v k then 1 else 0
      | None => 0
      end.
Proof.
  unfold pd.count_of. rewrite filter_app, length_app. f_equal.
  destruct c as [v|]; cbn [filter]; [|reflexivity].
  now destruct (String.eqb v k).
Qed.

Lemma bump_keys (v : string) (acc : list (string * nat)) :
  map fst (pd.bump v acc)
  = if Str.mem v (map fst acc) then map fst acc else (map fst acc ++ [v])%list.
Proof.
  induction acc as [|[k n] acc IH]; [reflexivity|].
  cbn [pd.bump map fst]. unfold Str.mem. cbn [existsb].
  rewrite (String.eqb_sym v k).
  destruct (String.eqb k v); cbn [orb map fst]; [reflexivity|].
  fold (Str.mem v (map fst acc)). rewrite IH.
  now destruct (Str.mem v (map fst acc)).
Qed.

Lemma bump_NoDup (v : string) (acc : list (string * nat)) :
  NoDup (map fst acc) -> NoDup (map fst (pd.bump v acc)).
Proof.
  intros Hnd. rewrite bump_keys.
  destruct (Str.mem v (map fst acc)) eqn:Hm; [assumption|].
  apply mem_false_iff in Hm.
  apply NoDup_app; [assumption | repeat constructor; simpl; tauto |].
  intros k Hk [<-|[]]. contradiction.
Qed.

Lemma bump_In_other (v k : string) (n : nat) (acc : list (string * nat)) :
  k <> v -> (In (k, n) (pd.bump v acc) <-> In (k, n) acc).
Proof.
  intros Hne. induction acc as [|[k' m] acc IH]; cbn [pd.bump In].
  - split; [intros [E|[]]; congruence | tauto].
  - destruct (String.eqb_spec k' v) as [->|Hk]; cbn [In].
    + split; (intros [E|H]; [congruence | now right]).
    + rewrite IH. tauto.
Qed.

Lemma bump_In_same (v : string) (n : nat) (acc : list (string * nat)) :
  NoDup (map fst acc) ->
  In (v, n) (pd.bump v acc) <->
  (exists m, In (v, m) acc /\ n = S m) \/ (~ In v (map fst acc) /\ n = 1).
Proof.
  induction acc as [|[k m] acc IH]; intros Hnd; cbn [pd.bump In map fst].
  - split.
    + intros [E|[]]. injection E as <-. right. tauto.
    + intros [[m [[] _]]|[_ ->]]. now left.
  - inversion Hnd as [|? ? Hk Hnd']; subst.
    destruct (String.eqb_spec k v) as [->|Hne]; cbn [In].
    + split.
      * intros [E|H].
        -- injection E as <-. left. exists m. split; [now left | reflexivity].
        -- exfalso. apply Hk. apply in_map_iff. now exists (v, n).
      * intros [[m' [[E|H] ->]]|[Hno _]].
        -- injection E as <-. now left.
        -- exfalso. apply Hk. apply in_map_iff. now exists (v, m').
        -- exfalso. apply Hno. now left.
    + rewrite (IH Hnd'). split.
      * intros [E|[[m' [H ->]]|[Hno ->]]]; [congruence | |].
        -- left. exists m'. split; [now right | reflexivity].
        -- right. split; [|reflexivity]. intros [E|H]; [congruence | tauto].
      * intros [[m' [[E|H] ->]]|[Hno ->]]; [congruence | |].
        -- right. left. now exists m'.
        -- right. right. split; [|reflexivity]. intros H. apply Hno. now right.
Qed.

(** What [tally] keeps true of the counts while it walks down the column. *)
Lemma tally_from (s seen : list pd.cell) (acc : list (string * nat)) :
  NoDup (map fst acc) ->
  (forall k n, In (k, n) acc <-> 0 < n /\ n = pd.count_of k seen) ->
  let counts := fold_left (fun acc c => match c with
                                        | Some v => pd.bump v acc
                                        | None => acc
                                        end) s acc in
  NoDup (map fst counts) /\
  forall k n, In (k, n) counts <-> 0 < n /\ n = pd.count_of k (seen ++ s).
Proof.
  revert seen acc. induction s as [|c s IH]; intros seen acc Hnd Hacc.
  - cbn [fold_left]. rewrite app_nil_r. now split.
  - cbn [fold_left].
    replace (seen ++ c :: s)%list with ((seen ++ [c]) ++ s)%list
      by now rewrite <- app_assoc.
    destruct c as [v|].
    + apply IH; [now apply bump_NoDup|].
      intros k n. rewrite count_of_snoc.
      destruct (String.eqb_spec v k) as [<-|Hne].
      * rewrite (bump_In_same v n acc Hnd). split.
        -- intros [[m [Hm ->]]|[Hno ->]].
           ++ apply Hacc in Hm. lia.
           ++ destruct (pd.count_of v seen) as [|c] eqn:E; [lia|].
              exfalso. apply Hno. apply in_map_iff. exists (v, S c).
              split; [reflexivity|]. apply Hacc. lia.
        -- intros [Hpos ->].
           destruct (pd.count_of v seen) as [|c] eqn:E.
           ++ right. split; [|reflexivity]. intros Hin.
              apply in_map_iff in Hin. destruct Hin as [[k m] [Hk Hin]].
              cbn [fst] in Hk. subst k. apply Hacc in Hin. lia.
           ++ left. exists (S c). split; [|lia]. apply Hacc. lia.
      * rewrite (bump_In_other v k n acc) by congruence.
        rewrite Hacc. lia.
    + apply IH; [assumption|].
      intros k n. rewrite count_of_snoc, Hacc. lia.
Qed.

Lemma insert_desc_perm (x : string * nat) (l : list (string * nat)) :
  Permutation (pd.insert_desc x l) (x :: l).
Proof.
  induction l as [|y l IH]; cbn [pd.insert_desc]; [reflexivity|].
  destruct (snd x <? snd y)%nat; [|reflexivity].
  rewrite IH. apply perm_swap.
Qed.

Lemma sort_desc_perm (l : list (string * nat)) :
  Permutation (fold_right pd.insert_desc [] l) l.
Proof.
  induction l as [|x l IH]; cbn [fold_right]; [reflexivity|].
  now rewrite insert_desc_perm, IH.
Qed.

Lemma insert_desc_sorted (x : string * nat) (l : list (string * nat)) :
  Sorted (fun a b => snd b <= snd a) l ->
  Sorted (fun a b => snd b <= snd a) (pd.insert_desc x l).
Proof.
  induction l as [|y l IH]; intros Hs; cbn [pd.insert_desc].
  - repeat constructor.
  - inversion Hs as [|? ? Hs' Hhd]; subst.
    destruct (Nat.ltb_spec (snd x) (snd y)) as [Hlt|Hge].
    + constructor; [now apply IH|].
      destruct l as [|z l]; cbn [pd.insert_desc].
      * constructor. lia.
      * inversion Hhd; subst.
        destruct (snd x <? snd z)%nat; constructor; [assumption | lia].
    + constructor; [assumption|]. constructor. exact Hge.
Qed.

Lemma sort_desc_sorted (l : list (string * nat)) :
  Sorted (fun a b => snd b <= snd a) (fold_right pd.insert_desc [] l).
Proof.
  induction l as [|x l IH]; cbn [fold_right]; [constructor|].
  now apply insert_desc_sorted.
Qed.

(** The summary lists every source label of the table once, with the
    number of rows that carry it, the most frequent label first; a label
    that heads no row is not listed. *)
Theorem summary_counts_rows (jora_crawler seek_crawler : Crawler)
    (first : completion) (df : pd.DataFrame) :
  consolidated_table jora_crawler seek_crawler first = Some (Ok df) ->
  exists source counts,
    pd.getitem df "source" = Ok source /\
    source_counts df = Ok counts /\
    NoDup (map fst counts) /\
    (forall label n,
       In (label, n) counts <-> 0 < n /\ n = pd.count_of label source) /\
    Sorted (fun a b => snd b <= snd a) counts.
Proof.
  intros Ht. apply consolidated_table_Some in Ht. destruct Ht as [_ Hdf].
  pose proof (source_column _ _ Hdf) as Hsrc.
  eexists. eexists. split; [exact Hsrc|].
  unfold source_counts. rewrite Hsrc. cbn [bind]. split; [reflexivity|].
  unfold pd.value_counts.
  match goal with |- context [pd.tally ?s] => set (src := s) end.
  destruct (tally_from src [] [] (NoDup_nil _)) as [Hnd Hin].
  { intros k n. cbn. split; [tauto | lia]. }
  cbn [app] in Hin. fold (pd.tally src) in Hnd, Hin.
  pose proof (sort_desc_perm (pd.tally src)) as Hperm.
  split; [|split].
  - eapply Permutation_NoDup; [|exact Hnd].
    apply Permutation_map. symmetry. exact Hperm.
  - intros label n. rewrite <- Hin. split; apply Permutation_in;
      [exact Hperm | symmetry; exact Hperm].
  - apply sort_desc_sorted.
Qed.

Lemma summary_counts_rows_witness :
  exists df source counts,
    consolidated_table Sample.jora3 Sample.seek2 SeekFirst = Some (Ok df) /\
    pd.getitem df "source" = Ok source /\
    source_counts df = Ok counts /\
    NoDup (map fst counts) /\
    (forall label n,
       In (label, n) counts <-> 0 < n /\ n = pd.count_of label source) /\
    Sorted (fun a b => snd b <= snd a) counts.
Proof.
  eexists.
  assert (Ht : consolidated_table Sample.jora3 Sample.seek2 SeekFirst = Some (Ok _))
    by (vm_compute; reflexivity).
  destruct (summary_counts_rows Sample.jora3 Sample.seek2 SeekFirst _ Ht)
    as [source [counts H]].
  exists source, counts. split; [exact Ht | exact H].
Defined.

Lemma filter_length_all {A : Type} (p : A -> bool) (l : list A) :
  length (filter p l) = length l -> forall x, In x l -> p x = true.
Proof.
  induction l as [|y l IH]; intros Hlen x Hin; [destruct Hin|].
  cbn [filter] in Hlen. pose proof (filter_length_le p l) as Hle.
  destruct (p y) eqn:Hy; cbn [length] in Hlen; [|lia].
  destruct Hin as [<-|Hin]; [exact Hy | apply IH; [lia | exact Hin]].
Qed.

(** The summary never counts more rows than the table has, and it counts
    them all exactly when every record of the run has a [source] or none
    has. *)
Theorem summary_never_overcounts (jora_crawler seek_crawler : Crawler)
    (first : completion) (df : pd.DataFrame) :
  let data := fst (gather jora_crawler seek_crawler first) in
  consolidated_table jora_crawler seek_crawler first = Some (Ok df) ->
  exists counts,
    source_counts df = Ok counts /\
    total counts <= pd.nrows df /\
    (total counts = pd.nrows df <->
     (forall r, In r data -> has_field "source" r = true) \/
     (forall r, In r data -> has_field "source" r = false)).
Proof.
  intros data Ht. apply consolidated_table_Some in Ht.
  destruct Ht as [_ Hdf]. fold data in Hdf.
  destruct (source_counts_total data df Hdf) as [counts [Hc Htot]].
  exists counts. split; [exact Hc|].
  rewrite Htot, (consolidate_nrows data df Hdf).
  destruct (Str.mem "source" (pd.union_keys data)) eqn:Hmem.
  - split; [apply filter_length_le|]. split.
    + intros Hlen. left. now apply filter_length_all.
    + intros [Hall|Hnone]; [now rewrite (filter_all _ _ Hall)|].
      apply mem_true_iff, union_keys_In in Hmem. destruct Hmem as [r [Hr Hk]].
      apply has_field_key in Hk. rewrite (Hnone r Hr) in Hk. discriminate.
  - split; [lia|]. split; [|reflexivity].
    intros _. right. intros r Hr.
    destruct (has_field "source" r) eqn:E; [|reflexivity].
    apply has_field_key in E. apply mem_false_iff in Hmem.
    exfalso. apply Hmem. apply union_keys_In. now exists r.
Qed.

Lemma summary_never_overcounts_witness :
  exists df counts,
    consolidated_table Sample.jora3 Sample.unlabelled JoraFirst = Some (Ok df) /\
    source_counts df = Ok counts /\
    total counts <= pd.nrows df /\
    (total counts = pd.nrows df <->
     (forall r, In r (fst (gather Sample.jora3 Sample.unlabelled JoraFirst)) ->
                has_field "source" r = true) \/
     (forall r, In r (fst (gather Sample.jora3 Sample.unlabelled JoraFirst)) ->
                has_field "source" r = false)).
Proof.
  eexists.
  assert (Ht : consolidated_table Sample.jora3 Sample.unlabelled JoraFirst
               = Some (Ok _)) by (vm_compute; reflexivity).
  destruct (summary_never_overcounts Sample.jora3 Sample.unlabelled JoraFirst _ Ht)
    as [counts H].
  exists counts. split; [exact Ht | exact H].
Defined.

(** ** What the main thread prints *)

(** The lines of a run with data, in full. *)
Lemma main_out_data (jora_crawler seek_crawler : Crawler) (first : completion)
    (fs : filesystem) (df : pd.DataFrame) :
  consolidated_table jora_crawler seek_crawler first = Some (Ok df) ->
  exists r counts,
    main jora_crawler seek_crawler first fs = Ok r /\
    source_counts df = Ok counts /\
    main_out r
    = (preamble
       ++ [ Line (Str.nl ++ banner);
            Line "COMBINING AND SAVING DATA";
            Line banner;
            Line (" Combined data saved to: " ++ output_filename);
            Line (" Total jobs collected: " ++ Str.of_nat (pd.nrows df));
            FileSizeLine (pd.to_csv df);
            Line (Str.nl ++ "Jobs by source:") ]
       ++ breakdown counts
       ++ [ Line (Str.nl ++ banner);
            Line "SCRAPING COMPLETED SUCCESSFULLY!";
            Line banner ])%list.
Proof.
  intros Ht. apply consolidated_table_Some in Ht. destruct Ht as [Hne Hdf].
  pose proof (consolidate_nrows _ _ Hdf) as Hn.
  destruct (source_counts_total _ _ Hdf) as [counts [Hc _]].
  unfold main. pose proof (gather_eq jora_crawler seek_crawler first) as Hg.
  destruct (gather jora_crawler seek_crawler first) as [data out].
  cbn [fst] in Hne, Hdf, Hn. injection Hg as _ ->.
  destruct data as [|r0 l]; [contradiction|].
  unfold combine_and_save. rewrite Hdf. cbn [bind]. rewrite Hc. cbn [bind].
  eexists. exists counts. split; [reflexivity|]. split; [reflexivity|].
  cbn [main_out fst snd]. now rewrite Hn.
Qed.

(** The total printed on line 93 is the number of rows of the table, and of
    lines of the file the run has just written. *)
Theorem printed_total_is_row_count (jora_crawler seek_crawler : Crawler)
    (first : completion) (fs : filesystem) (df : pd.DataFrame) :
  consolidated_table jora_crawler seek_crawler first = Some (Ok df) ->
  exists r,
    main jora_crawler seek_crawler first fs = Ok r /\
    disk r output_filename = Some (pd.to_csv df) /\
    In (Line (" Total jobs collected: "
              ++ Str.of_nat (length (lines (pd.to_csv df)))))
       (main_out r).
Proof.
  intros Ht.
  destruct (main_out_data _ _ _ fs _ Ht) as [r [counts [Hm [_ Ho]]]].
  destruct (main_emits _ _ _ fs _ Ht) as [r' [_ [_ [_ [Hm' [_ [Hd _]]]]]]].
  rewrite Hm in Hm'. injection Hm' as <-.
  exists r. split; [exact Hm|]. split.
  - rewrite Hd. unfold write. now rewrite String.eqb_refl.
  - rewrite Ho, to_csv_lines_length.
    apply in_or_app. right. apply in_or_app. left.
    do 4 right. left. reflexivity.
Qed.

Lemma printed_total_is_row_count_witness :
  exists df r,
    consolidated_table Sample.jora3 Sample.seek2 JoraFirst = Some (Ok df) /\
    main Sample.jora3 Sample.seek2 JoraFirst Sample.no_disk = Ok r /\
    disk r output_filename = Some (pd.to_csv df) /\
    In (Line (" Total jobs collected: "
              ++ Str.of_nat (length (lines (pd.to_csv df)))))
       (main_out r).
Proof.
  eexists.
  assert (Ht : consolidated_table Sample.jora3 Sample.seek2 JoraFirst = Some (Ok _))
    by (vm_compute; reflexivity).
  destruct (printed_total_is_row_count Sample.jora3 Sample.seek2 JoraFirst
              Sample.no_disk _ Ht) as [r H].
  exists r. split; [exact Ht | exact H].
Defined.


(** ** [scrape_portal] *)


(** ** The order of completion *)

Lemma count_of_perm (k : string) (s1 s2 : list pd.cell) :
  Permutation s1 s2 -> pd.count_of k s1 = pd.count_of k s2.
Proof.
  unfold pd.count_of. induction 1 as [|c s1 s2 _ IH|c d s|s1 s2 s3 _ IH1 _ IH2].
  - reflexivity.
  - cbn [filter]. destruct c as [x|]; [destruct (String.eqb x k)|];
      cbn [length]; now rewrite IH.
  - cbn [filter].
    destruct c as [x|], d as [y|];
      try destruct (String.eqb x k); try destruct (String.eqb y k); reflexivity.
  - now rewrite IH1.
Qed.

Lemma gather_perm (jora_crawler seek_crawler : Crawler) :
  Permutation (fst (gather jora_crawler seek_crawler JoraFirst))
              (fst (gather jora_crawler seek_crawler SeekFirst)).
Proof.
  rewrite !gather_eq. cbn [fst as_completed concat]. rewrite !app_nil_r.
  apply Permutation_app_comm.
Qed.

Lemma union_keys_perm (data1 data2 : list record) (k : string) :
  Permutation data1 data2 ->
  (In k (pd.union_keys data1) <-> In k (pd.union_keys data2)).
Proof.
  intros Hp. rewrite !union_keys_In.
  split; intros [r [Hr Hk]]; exists r; (split; [|exact Hk]).
  - eapply Permutation_in; eassumption.
  - eapply Permutation_in; [symmetry|]; eassumption.
Qed.

Lemma consolidate_columns_In (data : list record) (df : pd.DataFrame) (k : string) :
  consolidate data = Ok df ->
  (In k (pd.columns df) <-> In k (pd.union_keys data) \/ In k required_columns).
Proof.
  intros Hdf. split; [|apply (consolidate_has_column _ _ k Hdf)].
  rewrite (consolidate_columns _ _ Hdf), <- (add_keys_app _ _ required_NoDup).
  intros [<-|Hin]; [right; exact source_required|].
  apply filter_In in Hin. destruct Hin as [Hin _]. now apply add_keys_In in Hin.
Qed.

(** The [source] column of the raw records behind a table. *)
Lemma source_counts_by_label (data : list record) (df : pd.DataFrame) :
  consolidate data = Ok df ->
  exists counts,
    source_counts df = Ok counts /\
    forall label n,
      In (label, n) counts <->
      0 < n /\
      n = pd.count_of label
            (if Str.mem "source" (pd.union_keys data)
             then map (get "source") data
             else List.repeat (Some "N/A") (length data)).
Proof.
  intros Hdf. unfold source_counts. rewrite (source_column _ _ Hdf). cbn [bind].
  eexists. split; [reflexivity|]. unfold pd.value_counts.
  match goal with |- context [pd.tally ?s] => set (src := s) end.
  destruct (tally_from src [] [] (NoDup_nil _)) as [_ Hin].
  { intros k n. cbn. split; [tauto | lia]. }
  cbn [app] in Hin. fold (pd.tally src) in Hin.
  intros label n.
  transitivity (In (label, n) (pd.tally src)); [|exact (Hin label n)].
  split; apply Permutation_in; [|symmetry]; apply sort_desc_perm.
Qed.

(** Which task completes first changes the order of the rows and of the
    columns, nothing else: under either order the same records are
    gathered, the table is emitted or not alike, has as many rows and the
    same columns, and the summary gives every label the same count. *)
Theorem completion_order_irrelevant (jora_crawler seek_crawler : Crawler) :
  Permutation (fst (gather jora_crawler seek_crawler JoraFirst))
              (fst (gather jora_crawler seek_crawler SeekFirst)) /\
  match consolidated_table jora_crawler seek_crawler JoraFirst,
        consolidated_table jora_crawler seek_crawler SeekFirst with
  | Some (Ok df1), Some (Ok df2) =>
      pd.nrows df1 = pd.nrows df2 /\
      (forall k, In k (pd.columns df1) <-> In k (pd.columns df2)) /\
      exists counts1 counts2,
        source_counts df1 = Ok counts1 /\
        source_counts df2 = Ok counts2 /\
        forall label n, In (label, n) counts1 <-> In (label, n) counts2
  | None, None => True
  | _, _ => False
  end.
Proof.
  pose proof (gather_perm jora_crawler seek_crawler) as Hp.
  split; [exact Hp|].
  pose proof (consolidated_table_rows jora_crawler seek_crawler JoraFirst) as H1.
  pose proof (consolidated_table_rows jora_crawler seek_crawler SeekFirst) as H2.
  destruct (consolidated_table jora_crawler seek_crawler JoraFirst)
    as [[df1|k1]|] eqn:Ht1;
    destruct (consolidated_table jora_crawler seek_crawler SeekFirst)
      as [[df2|k2]|] eqn:Ht2; try contradiction; try exact I.
  - destruct H1 as [Hn1 _], H2 as [Hn2 _].
    apply consolidated_table_Some in Ht1, Ht2.
    destruct Ht1 as [_ Hdf1], Ht2 as [_ Hdf2].
    split; [|split].
    + rewrite Hn1, Hn2. now apply Permutation_length.
    + intros k. rewrite (consolidate_columns_In _ _ k Hdf1),
        (consolidate_columns_In _ _ k Hdf2), (union_keys_perm _ _ k Hp).
      reflexivity.
    + destruct (source_counts_by_label _ _ Hdf1) as [c1 [Hc1 Hin1]].
      destruct (source_counts_by_label _ _ Hdf2) as [c2 [Hc2 Hin2]].
      exists c1, c2. split; [exact Hc1|]. split; [exact Hc2|].
      intros label n. rewrite Hin1, Hin2.
      assert (Hmem : Str.mem "source" (pd.union_keys
                        (fst (gather jora_crawler seek_crawler JoraFirst)))
                     = Str.mem "source" (pd.union_keys
                        (fst (gather jora_crawler seek_crawler SeekFirst)))).
      { apply eq_true_iff_eq. rewrite !mem_true_iff. now apply union_keys_perm. }
      rewrite Hmem, (Permutation_length Hp).
      destruct (Str.mem "source"
                  (pd.union_keys
                     (fst (gather jora_crawler seek_crawler SeekFirst))));
        [|reflexivity].
      rewrite (count_of_perm label _ _ (Permutation_map (get "source") Hp)).
      reflexivity.
  - destruct H1 as [_ Hne]. exfalso. apply Hne.
    apply Permutation_sym in Hp. rewrite H2 in Hp.
    now apply Permutation_nil in Hp.
  - destruct H2 as [_ Hne]. exfalso. apply Hne.
    rewrite H1 in Hp. now apply Permutation_nil in Hp.
Qed.

(** ** Schema enforcement on its own *)

Lemma fill_missing_cols (req : list string) (df : pd.DataFrame) :
  NoDup req ->
  pd.cols (fold_left fill_missing req df)
  = (pd.cols df
     ++ map (fun c => (c, List.repeat (Some "N/A") (pd.index_len df)))
            (filter (fun c => negb (Str.mem c (pd.columns df))) req))%list.
Proof.
  revert df. induction req as [|c req IH]; intros df Hnd; cbn [fold_left filter].
  - now rewrite app_nil_r.
  - inversion Hnd as [|? ? Hc Hnd']; subst. rewrite (IH _ Hnd').
    unfold fill_missing.
    destruct (Str.mem c (pd.columns df)) eqn:Hm; cbn [negb]; [reflexivity|].
    unfold pd.setitem. cbn [pd.cols pd.index_len]. rewrite Hm.
    cbn [map]. rewrite <- app_assoc. cbn [app]. do 3 f_equal.
    apply filter_ext_in. intros y Hy. f_equal.
    unfold pd.columns. cbn [pd.cols]. rewrite map_app. cbn [map fst].
    unfold Str.mem. rewrite existsb_app. cbn [existsb].
    destruct (String.eqb_spec y c) as [->|]; [contradiction|].
    now rewrite !orb_false_r.
Qed.

(** Lines 78-81 only append: the columns that were there keep their place
    and their cells, and each required field that was not a column becomes
    one, after them, in the order of the required list, holding ["N/A"] on
    every row. *)
Theorem enforcement_only_appends (df : pd.DataFrame) :
  pd.index_len (ensure_required df) = pd.index_len df /\
  pd.cols (ensure_required df)
  = (pd.cols df
     ++ map (fun c => (c, List.repeat (Some "N/A") (pd.index_len df)))
            (filter (fun c => negb (Str.mem c (pd.columns df)))
                    required_columns))%list.
Proof.
  rewrite ensure_required_fold. split.
  - apply fill_missing_index_len.
  - apply fill_missing_cols, required_NoDup.
Qed.

Lemma fill_missing_fixed (req : list string) (df : pd.DataFrame) :
  (forall c, In c req -> In c (pd.columns df)) ->
  fold_left fill_missing req df = df.
Proof.
  induction req as [|c req IH]; intros H; cbn [fold_left]; [reflexivity|].
  unfold fill_missing at 2.
  assert (Hm : Str.mem c (pd.columns df) = true)
    by (apply mem_true_iff, H; now left).
  rewrite Hm. apply IH. intros c' Hc'. apply H. now right.
Qed.

(** Enforcing the schema twice is enforcing it once, and a table that has
    every required column is left as it is. *)
Theorem enforcement_idempotent (df : pd.DataFrame) :
  ensure_required (ensure_required df) = ensure_required df /\
  ((forall c, In c required_columns -> In c (pd.columns df)) ->
   ensure_required df = df).
Proof.
  split.
  - rewrite (ensure_required_fold (ensure_required df)).
    apply fill_missing_fixed. intros c Hc.
    rewrite ensure_required_columns, add_keys_In. now right.
  - intros H. rewrite ensure_required_fold. now apply fill_missing_fixed.
Qed.

(** ** Runs of the pool *)


Lemma reach_in_reachable (jora_crawler seek_crawler : Crawler) (fs : filesystem)
    (n : nat) (s : Dispatch.state) :
  Dispatch.reach_in jora_crawler seek_crawler fs n s ->
  Dispatch.reachable jora_crawler seek_crawler fs s.
Proof.
  induction 1 as [|n s s' _ IH Hstep];
    [apply Dispatch.reach_init | exact (Dispatch.reach_step _ _ _ s s' IH Hstep)].
Qed.

(** With one of the two tasks still to be yielded, at most the other one
    has been. *)
Lemma yielded_short (l : list Dispatch.task) (t : Dispatch.task) :
  NoDup l -> ~ In t l -> length l <= 1.
Proof.
  intros Hnd Hnot. destruct l as [|a [|b l]]; cbn [length]; try lia.
  exfalso. inversion Hnd as [|? ? Ha _]; subst.
  destruct a, b, t; cbn [In] in Ha, Hnot; tauto.
Qed.



(** Each transition uses up one of the six a run is made of: after [n]
    transitions [remaining] is [6 - n].  So no run is longer than six
    transitions, and the states reached after six are exactly those in
    which the data has been combined. *)
Theorem pool_run_length (jora_crawler seek_crawler : Crawler) (fs : filesystem)
    (n : nat) (s : Dispatch.state) :
  Dispatch.reach_in jora_crawler seek_crawler fs n s ->
  n + Dispatch.remaining s = 6 /\
  (n = 6 <-> exists saved, Dispatch.at_pc s = Dispatch.Finished saved).
Proof.
  intros Hn.
  assert (Hsum : n + Dispatch.remaining s = 6).
  { induction Hn as [|n s s' Hn IH Hstep]; [reflexivity|].
    pose proof (reachable_invariant _ _ _ _ (reach_in_reachable _ _ _ _ _ Hn))
      as [_ _ Honce _ _ _].
    unfold Dispatch.remaining in *.
    destruct Hstep as [s t Hnone | s t f Hpc Hnew Hf | s Hpc Hall | s Hpc].
    - destruct t; cbn [Dispatch.future_of] in Hnone;
        cbn [Dispatch.settle Dispatch.jora_future Dispatch.seek_future
             Dispatch.yielded Dispatch.at_pc Dispatch.unsettled];
        rewrite Hnone in IH; cbn [Dispatch.unsettled] in IH; lia.
    - pose proof (yielded_short _ _ Honce Hnew) as Hshort.
      cbn [Dispatch.consume Dispatch.jora_future Dispatch.seek_future
           Dispatch.yielded Dispatch.at_pc].
      rewrite length_app. cbn [length]. lia.
    - cbn [Dispatch.goto Dispatch.jora_future Dispatch.seek_future
           Dispatch.yielded Dispatch.at_pc].
      rewrite Hpc in IH. lia.
    - cbn [Dispatch.goto Dispatch.jora_future Dispatch.seek_future
           Dispatch.yielded Dispatch.at_pc].
      rewrite Hpc in IH. lia. }
  split; [exact Hsum|].
  pose proof (reachable_invariant _ _ _ _ (reach_in_reachable _ _ _ _ _ Hn))
    as [_ Hy Honce _ Hleft _].
  unfold Dispatch.remaining in Hsum. split.
  - intros ->. destruct (Dispatch.at_pc s) as [| |saved]; [lia | lia|].
    now exists saved.
  - intros [saved Hpc].
    assert (Hall : forall t, In t (Dispatch.yielded s))
      by (apply Hleft; congruence).
    pose proof (Hy Dispatch.Jora (Hall Dispatch.Jora)) as Hj.
    pose proof (Hy Dispatch.Seek (Hall Dispatch.Seek)) as Hs.
    cbn [Dispatch.future_of] in Hj, Hs.
    destruct (yielded_both _ Honce Hall) as [E|E]; rewrite E, Hpc in Hsum;
      destruct (Dispatch.jora_future s); try congruence;
      destruct (Dispatch.seek_future s); try congruence;
      cbn in Hsum; lia.
Qed.

(** Jora's worker has finished and its future has been through the loop:
    two transitions made, four to go. *)
Lemma pool_run_length_witness :
  let f := Dispatch.settled_future Sample.jora3 Sample.seek2 Dispatch.Jora in
  let s := Dispatch.consume (Dispatch.settle Dispatch.init Dispatch.Jora f)
             Dispatch.Jora f in
  Dispatch.reach_in Sample.jora3 Sample.seek2 Sample.no_disk 2 s /\
  2 + Dispatch.remaining s = 6 /\
  (2 = 6 <-> exists saved, Dispatch.at_pc s = Dispatch.Finished saved).
Proof.
  intros f s.
  assert (Hn : Dispatch.reach_in Sample.jora3 Sample.seek2 Sample.no_disk 2 s).
  { unfold s. eapply Dispatch.reach_in_step.
    - eapply Dispatch.reach_in_step; [apply Dispatch.reach_in_init|].
      apply (Dispatch.worker_done _ _ _ _ Dispatch.Jora). reflexivity.
    - apply Dispatch.loop_body; [reflexivity | intros [] | reflexivity]. }
  split; [exact Hn|].
  exact (pool_run_length Sample.jora3 Sample.seek2 Sample.no_disk 2 s Hn).
Defined.




